(** * Image-collection controller of [src/App.tsx]

    A shallow embedding of the React component [App] of the multi-class
    augmentation front end: its six pieces of component state, its event
    handlers, the part of the markup that decides which events can reach
    a handler, and the browser facilities the handlers call
    ([Array.prototype.splice], [String.prototype.trim], [FormData],
    [URL.createObjectURL], the drag data store, one pending [axios.post]).

    Layout: the JavaScript prelude ([Js]), the data model and the
    handlers ([App]), the event loop ([Ui]), the reference operations of
    the specification ([Spec]) and then the theorems. *)

From Stdlib Require Import ZArith List Bool String Ascii Lia Decimal DecimalString DecimalZ DecimalPos Permutation.
Import ListNotations.

#[local] Open Scope string_scope.
#[local] Open Scope list_scope.
#[local] Open Scope Z_scope.

(* ================================================================== *)
(** * JavaScript prelude *)
(* ================================================================== *)

Module Js.

(** A [number] as this program meets it: indices, [parseInt] results
    and [Number(..)] results are integers or [NaN].  [Int z] stands
    for the double that is exactly [z]. *)
Inductive number : Type :=
| NaN
| Int (z : Z).

(** [Number.isSafeInteger]: the integers that are doubles of their own,
    with both neighbours doubles too.  On them [Int z] is exact and
    [toString] below is the numeral the engine prints; beyond them a
    double need not be the integer typed, and from 1e21 on the engine
    prints an exponent form that [toString] does not model. *)
Definition safeInteger (z : Z) : bool :=
  (- (2 ^ 53 - 1) <=? z) && (z <=? 2 ^ 53 - 1).

(** [x === y] on numbers: [NaN] equals nothing. *)
Definition strictEq (x y : number) : bool :=
  match x, y with
  | Int a, Int b => a =? b
  | _, _ => false
  end.

(** [ToIntegerOrInfinity]. *)
Definition toIntegerOrInfinity (x : number) : Z :=
  match x with
  | NaN => 0
  | Int z => z
  end.

(** [Number.prototype.toString] (radix 10), exact on [NaN] and on the
    safe integers. *)
Definition toString (x : number) : string :=
  match x with
  | NaN => "NaN"
  | Int z => NilZero.string_of_int (Z.to_int z)
  end.

(** Strings are sequences of code units; the model carries the code
    units below 256.  [WhiteSpace] and [LineTerminator] in that range:
    TAB, LF, VT, FF, CR, SP and NBSP. *)
Definition isWhiteSpace (c : ascii) : bool :=
  let n := nat_of_ascii c in
  ((n =? 9) || (n =? 10) || (n =? 11) || (n =? 12) || (n =? 13)
   || (n =? 32) || (n =? 160))%nat.

Fixpoint trimStart (s : string) : string :=
  match s with
  | EmptyString => EmptyString
  | String c rest => if isWhiteSpace c then trimStart rest else s
  end.

Fixpoint trimEnd (s : string) : string :=
  match s with
  | EmptyString => EmptyString
  | String c rest =>
      match trimEnd rest with
      | EmptyString => if isWhiteSpace c then EmptyString else String c EmptyString
      | kept => String c kept
      end
  end.

(** [String.prototype.trim]. *)
Definition trim (s : string) : string := trimEnd (trimStart s).

(** [!s] for a string [s]: only the empty string is falsy. *)
Definition not (s : string) : bool :=
  match s with
  | EmptyString => true
  | String _ _ => false
  end.

(** Every code unit of [s] is white space. *)
Fixpoint blank (s : string) : bool :=
  match s with
  | EmptyString => true
  | String c rest => isWhiteSpace c && blank rest
  end.

Definition ofDigits (digits : string) : number :=
  match NilZero.uint_of_string digits with
  | Some d => Int (Z.of_uint d)
  | None => NaN
  end.

Definition negate (x : number) : number :=
  match x with
  | NaN => NaN
  | Int z => Int (- z)
  end.

(** [Number(s)], i.e. [StringToNumber], on the literals this program
    stores: surrounding white space is dropped, the empty string is
    [0], and an optionally signed run of decimal digits is its value.
    The other literal forms (fractions, exponents, radix prefixes,
    [Infinity]) are not written by any handler and read as [NaN]. *)
Definition Number (s : string) : number :=
  match trim s with
  | EmptyString => Int 0
  | String c rest as t =>
      if Ascii.eqb c "-" then negate (ofDigits rest)
      else if Ascii.eqb c "+" then ofDigits rest
      else ofDigits t
  end.

Section Arrays.
Context {A : Type}.

(** Clamping of a relative index against [len], as [splice] and
    [slice] do it: negative values count from the end. *)
Definition relativeIndex (len : nat) (rel : Z) : nat :=
  if rel <? 0 then Z.to_nat (Z.max (Z.of_nat len + rel) 0)
  else Z.to_nat (Z.min rel (Z.of_nat len)).

(** [arr.splice(start, deleteCount, ...items)]: the removed elements
    and the array afterwards. *)
Definition splice (arr : list A) (start : number) (deleteCount : Z)
           (items : list A) : list A * list A :=
  let len := List.length arr in
  let actualStart := relativeIndex len (toIntegerOrInfinity start) in
  let actualDeleteCount :=
    Z.to_nat (Z.min (Z.max deleteCount 0) (Z.of_nat (len - actualStart))) in
  (firstn actualDeleteCount (skipn actualStart arr),
   firstn actualStart arr ++ items ++ skipn (actualStart + actualDeleteCount) arr).

(** [arr.map((item, i) => f item i)], positions counted from [i]. *)
Fixpoint mapFrom {B : Type} (f : A -> Z -> B) (i : Z) (arr : list A) : list B :=
  match arr with
  | [] => []
  | item :: rest => f item i :: mapFrom f (i + 1) rest
  end.

Definition map {B : Type} (f : A -> Z -> B) (arr : list A) : list B :=
  mapFrom f 0 arr.

(** [arr.filter((item, i) => keep item i)]. *)
Fixpoint filterFrom (keep : A -> Z -> bool) (i : Z) (arr : list A) : list A :=
  match arr with
  | [] => []
  | item :: rest =>
      if keep item i then item :: filterFrom keep (i + 1) rest
      else filterFrom keep (i + 1) rest
  end.

Definition filter (keep : A -> Z -> bool) (arr : list A) : list A :=
  filterFrom keep 0 arr.

(** [arr.some(p)]. *)
Definition some (p : A -> bool) (arr : list A) : bool := existsb p arr.

(** [arr.forEach(body)] over an accumulator threaded through the body. *)
Definition forEach {S : Type} (body : S -> A -> S) (arr : list A) (init : S) : S :=
  fold_left body arr init.
End Arrays.

End Js.

(* ================================================================== *)
(** * Browser objects the handlers use *)
(* ================================================================== *)

(** A [File] as the component reads it: [name], [size] and [type]. *)
Record File : Type := mkFile {
  file_name : string;
  file_size : Z;
  file_type : string
}.

(** The bytes of a response body. *)
Definition Blob : Type := string.

(** An object URL; [URL.createObjectURL] hands out a fresh one per call. *)
Inductive ObjectURL : Type :=
| BlobURL (id : nat).

Module FormData.

Inductive value : Type :=
| FileValue (f : File)
| StringValue (s : string).

(** The entry list of a [FormData], in insertion order. *)
Definition t : Type := list (string * value).

Definition empty : t := [].

(** [fd.append(name, v)]. *)
Definition append (name : string) (v : value) (fd : t) : t := fd ++ [(name, v)].

(** [fd.getAll(name)]. *)
Fixpoint getAll (name : string) (fd : t) : list value :=
  match fd with
  | [] => []
  | (n, v) :: rest =>
      if String.eqb n name then v :: getAll name rest else getAll name rest
  end.

End FormData.

(** One [axios.post(url, formData, ..)]. *)
Record Request : Type := mkRequest {
  endpoint : string;
  body : FormData.t
}.

(* ================================================================== *)
(** * The component: state and handlers *)
(* ================================================================== *)

Module App.

(** An element of the [files] array: [{file: File, className: string}]. *)
Record FileEntry : Type := mkEntry {
  file : File;
  className : string
}.

(** The six [useState] cells of [App]. *)
Record State : Type := mkState {
  files : list FileEntry;
  numImages : Js.number;
  isLoading : bool;
  error : option string;
  downloadUrl : option ObjectURL;
  activeDragIndex : option Z
}.

(** What the handlers reach outside the component: the drag data store
    of the gesture in progress (format, data), the requests posted so
    far and those still awaiting their response, the object URLs the
    handlers created that are live in the document, and the number of
    calls to [console.error].  The preview URLs that the markup creates
    at line 151 on every render are not tracked. *)
Record World : Type := mkWorld {
  ui : State;
  dataTransfer : list (string * string);
  posted : list Request;
  pending : list Request;
  objectURLs : list (ObjectURL * Blob);
  nextObjectURL : nat;
  consoleErrors : nat
}.

Definition initialState : State :=
  mkState [] (Js.Int 10) false None None None.

Definition initialWorld : World :=
  mkWorld initialState [] [] [] [] 0 0.

(** ** State setters *)

Definition setFiles (update : list FileEntry -> list FileEntry) (s : State) : State :=
  mkState (update (files s)) (numImages s) (isLoading s) (error s)
          (downloadUrl s) (activeDragIndex s).

Definition setNumImages (n : Js.number) (s : State) : State :=
  mkState (files s) n (isLoading s) (error s) (downloadUrl s) (activeDragIndex s).

Definition setIsLoading (b : bool) (s : State) : State :=
  mkState (files s) (numImages s) b (error s) (downloadUrl s) (activeDragIndex s).

Definition setError (e : option string) (s : State) : State :=
  mkState (files s) (numImages s) (isLoading s) e (downloadUrl s) (activeDragIndex s).

Definition setDownloadUrl (u : option ObjectURL) (s : State) : State :=
  mkState (files s) (numImages s) (isLoading s) (error s) u (activeDragIndex s).

Definition setActiveDragIndex (i : option Z) (s : State) : State :=
  mkState (files s) (numImages s) (isLoading s) (error s) (downloadUrl s) i.

Definition withUi (f : State -> State) (w : World) : World :=
  mkWorld (f (ui w)) (dataTransfer w) (posted w) (pending w)
          (objectURLs w) (nextObjectURL w) (consoleErrors w).

(** ** Browser calls *)

(** [e.dataTransfer.setData(format, data)]. *)
Definition setData (format data : string) (w : World) : World :=
  mkWorld (ui w)
          ((format, data)
             :: List.filter (fun kv => negb (String.eqb (fst kv) format)) (dataTransfer w))
          (posted w) (pending w) (objectURLs w) (nextObjectURL w) (consoleErrors w).

(** [e.dataTransfer.getData(format)]: the empty string when absent. *)
Fixpoint getData (format : string) (store : list (string * string)) : string :=
  match store with
  | [] => EmptyString
  | (f, d) :: rest => if String.eqb f format then d else getData format rest
  end.

(** [axios.post(url, formData, ..)]: the request leaves and its
    response is awaited. *)
Definition post (r : Request) (w : World) : World :=
  mkWorld (ui w) (dataTransfer w) (posted w ++ [r]) (pending w ++ [r])
          (objectURLs w) (nextObjectURL w) (consoleErrors w).

(** [URL.createObjectURL(blob)]: a fresh URL, live until revoked. *)
Definition createObjectURL (b : Blob) (w : World) : ObjectURL * World :=
  let u := BlobURL (nextObjectURL w) in
  (u, mkWorld (ui w) (dataTransfer w) (posted w) (pending w)
              (objectURLs w ++ [(u, b)]) (S (nextObjectURL w)) (consoleErrors w)).

(** [console.error(err)]. *)
Definition consoleError (w : World) : World :=
  mkWorld (ui w) (dataTransfer w) (posted w) (pending w)
          (objectURLs w) (nextObjectURL w) (S (consoleErrors w)).

(** The response of the oldest pending request has arrived. *)
Definition settle (w : World) : World :=
  mkWorld (ui w) (dataTransfer w) (posted w) (tl (pending w))
          (objectURLs w) (nextObjectURL w) (consoleErrors w).

(** ** Handlers, in the order of the source *)

(** [useDropzone({ onDrop })], lines 20-28. *)
Definition onDrop (acceptedFiles : list File) (w : World) : World :=
  let newFiles := List.map (fun f => mkEntry f EmptyString) acceptedFiles in
  let w := withUi (setFiles (fun prev => prev ++ newFiles)) w in
  let w := withUi (setError None) w in
  withUi (setDownloadUrl None) w.

(** The updater of [handleClassNameChange], lines 32-34. *)
Definition classNameUpdater (index : Z) (value : string)
           (prev : list FileEntry) : list FileEntry :=
  Js.map (fun item i => if i =? index then mkEntry (file item) value else item) prev.

Definition handleClassNameChange (index : Z) (value : string) (w : World) : World :=
  withUi (setFiles (classNameUpdater index value)) w.

(** The updater of [removeFile], line 38. *)
Definition removeUpdater (index : Z) (prev : list FileEntry) : list FileEntry :=
  Js.filter (fun _ i => negb (i =? index)) prev.

Definition removeFile (index : Z) (w : World) : World :=
  withUi (setFiles (removeUpdater index)) w.

(** [handleDragStart], lines 41-44. *)
Definition handleDragStart (index : Z) (w : World) : World :=
  let w := setData "index" (Js.toString (Js.Int index)) w in
  withUi (setActiveDragIndex (Some index)) w.

(** [handleDragOver], lines 46-48: only [preventDefault]. *)
Definition handleDragOver (_index : Z) (w : World) : World := w.

(** The updater of [handleDrop], lines 55-60.  [const [removed] = ..]
    binds [undefined] when the first [splice] removed nothing; the
    second [splice] would then store [undefined] in an array whose
    elements are entries, and the next render reads [item.file] of it.
    That outcome lies outside [list FileEntry] and is [None] here. *)
Definition dropUpdater (sourceIndex : Js.number) (targetIndex : Z)
           (prev : list FileEntry) : option (list FileEntry) :=
  let newFiles := prev in
  let '(removedItems, newFiles) := Js.splice newFiles sourceIndex 1 [] in
  match removedItems with
  | removed :: _ => Some (snd (Js.splice newFiles (Js.Int targetIndex) 0 [removed]))
  | [] => None
  end.

(** [handleDrop], lines 50-63. *)
Definition handleDrop (targetIndex : Z) (w : World) : option World :=
  let sourceIndex := Js.Number (getData "index" (dataTransfer w)) in
  if Js.strictEq sourceIndex (Js.Int targetIndex) then Some w
  else
    match dropUpdater sourceIndex targetIndex (files (ui w)) with
    | Some newFiles =>
        let w := withUi (setFiles (fun _ => newFiles)) w in
        Some (withUi (setActiveDragIndex None) w)
    | None => None
    end.

Definition serviceUrl : string := "https://www.aiocr.go-ai.one/yolo-api/augment/".

(** The body of the [forEach] of lines 85-88. *)
Definition appendEntry (formData : FormData.t) (item : FileEntry) : FormData.t :=
  let formData := FormData.append "files" (FormData.FileValue (file item)) formData in
  FormData.append "class_names" (FormData.StringValue (className item)) formData.

(** Lines 83-90: the form data built from the rendered state. *)
Definition buildFormData (s : State) : FormData.t :=
  let formData := FormData.empty in
  let formData := Js.forEach appendEntry (files s) formData in
  FormData.append "num_images"
                  (FormData.StringValue (Js.toString (numImages s))) formData.

(** [handleSubmit] up to its [await], lines 65-98.  [files] and
    [numImages] are those of the render the handler was created in. *)
Definition handleSubmit (w : World) : World :=
  let s := ui w in
  if (List.length (files s) =? 0)%nat then
    withUi (setError (Some "Please select at least one image file")) w
  else if Js.some (fun item => Js.not (Js.trim (className item))) (files s) then
    withUi (setError (Some "Please provide a class name for each image")) w
  else
    let w := withUi (setIsLoading true) w in
    let w := withUi (setError None) w in
    let w := withUi (setDownloadUrl None) w in
    let formData := buildFormData s in
    post (mkRequest serviceUrl formData) w.

(** [handleSubmit] after the [await], on a fulfilled request:
    lines 100-101 and the [finally] of line 106. *)
Definition handleSubmitFulfilled (data : Blob) (w : World) : World :=
  let '(url, w) := createObjectURL data w in
  let w := withUi (setDownloadUrl (Some url)) w in
  withUi (setIsLoading false) w.

(** [handleSubmit] after the [await], on a rejected request:
    lines 103-104 and the [finally] of line 106. *)
Definition handleSubmitRejected (w : World) : World :=
  let w := withUi (setError (Some "Error processing images. Please try again.")) w in
  let w := consoleError w in
  withUi (setIsLoading false) w.

(** ** The markup that gates the handlers *)

(** [disabled={isLoading || files.length === 0}] of the submit button,
    line 193. *)
Definition submitDisabled (s : State) : bool :=
  isLoading s || (List.length (files s) =? 0)%nat.

(** [disabled={isLoading}] of the class-name and count inputs,
    lines 164 and 187. *)
Definition inputDisabled (s : State) : bool := isLoading s.

(** [required] on every class-name input, line 163: the form's
    constraint validation withholds the submit event while one of
    them is empty. *)
Definition requiredSatisfied (s : State) : bool :=
  forallb (fun item => negb (Js.not (className item))) (files s).

(** [type="number" min="1" max="100"] of the count input, lines
    180-188.  The controlled input shows [numImages]: [NaN] leaves the
    field empty, which violates nothing since the input is not
    [required]; a number below 1 or above 100 is out of range, and the
    form's constraint validation withholds the submit event. *)
Definition countValid (s : State) : bool :=
  match numImages s with
  | Js.NaN => true
  | Js.Int z => (1 <=? z) && (z <=? 100)
  end.

(** An item with this index is rendered by [files.map], lines 128-173. *)
Definition rendered (index : Z) (s : State) : bool :=
  (0 <=? index) && (index <? Z.of_nat (List.length (files s))).

End App.

(* ================================================================== *)
(** * The event loop *)
(* ================================================================== *)

Module Ui.
Import App.

(** What can happen to the mounted component: a user gesture on one of
    its elements, or the outcome of the pending request. *)
Inductive Event : Type :=
| FilesDropped (acceptedFiles : list File)
| ClassNameTyped (index : Z) (value : string)
| RemoveClicked (index : Z)
| DragStarted (index : Z)
| DraggedOver (index : Z)
| DroppedOn (targetIndex : Z)
| NumImagesTyped (parsed : Js.number)
| SubmitClicked
| ResponseArrived (data : Blob)
| RequestFailed.

(** One turn of the event loop.  [None]: the event cannot occur in
    this world (its element is not rendered, no request is pending) or
    the handler leaves the typed state space.  A gesture on a disabled
    control, or a submit withheld by constraint validation, occurs and
    reaches no handler.  [NumImagesTyped] carries the value of
    [parseInt(e.target.value)]. *)
Definition step (ev : Event) (w : World) : option World :=
  match ev with
  | FilesDropped acceptedFiles => Some (onDrop acceptedFiles w)
  | ClassNameTyped index value =>
      if rendered index (ui w) then
        if inputDisabled (ui w) then Some w
        else Some (handleClassNameChange index value w)
      else None
  | RemoveClicked index =>
      if rendered index (ui w) then Some (removeFile index w) else None
  | DragStarted index =>
      if rendered index (ui w) then Some (handleDragStart index w) else None
  | DraggedOver index =>
      if rendered index (ui w) then Some (handleDragOver index w) else None
  | DroppedOn targetIndex =>
      if rendered targetIndex (ui w) then handleDrop targetIndex w else None
  | NumImagesTyped parsed =>
      if inputDisabled (ui w) then Some w
      else Some (withUi (setNumImages parsed) w)
  | SubmitClicked =>
      if submitDisabled (ui w)
         || negb (requiredSatisfied (ui w) && countValid (ui w))
      then Some w
      else Some (handleSubmit w)
  | ResponseArrived data =>
      match pending w with
      | [] => None
      | _ :: _ => Some (handleSubmitFulfilled data (settle w))
      end
  | RequestFailed =>
      match pending w with
      | [] => None
      | _ :: _ => Some (handleSubmitRejected (settle w))
      end
  end.

Fixpoint run (events : list Event) (w : World) : option World :=
  match events with
  | [] => Some w
  | ev :: rest =>
      match step ev w with
      | Some w' => run rest w'
      | None => None
      end
  end.

(** The worlds the mounted component can be in. *)
Inductive reachable : World -> Prop :=
| reachable_init : reachable initialWorld
| reachable_step : forall w ev w',
    reachable w -> step ev w = Some w' -> reachable w'.

(** How many responses were delivered along a run of events. *)
Fixpoint fulfilled (events : list Event) : nat :=
  match events with
  | [] => 0
  | ResponseArrived _ :: rest => S (fulfilled rest)
  | _ :: rest => fulfilled rest
  end.

End Ui.

(* ================================================================== *)
(** * Reference operations, after the specification's wording *)
(* ================================================================== *)

Module Spec.
Import App.

Inductive CollectionError : Type :=
| IndexOutOfRange.

Inductive result (A : Type) : Type :=
| Ok (a : A)
| Fail (e : CollectionError).
Arguments Ok {A} a.
Arguments Fail {A} e.

Definition inRange (index : Z) (collection : list FileEntry) : bool :=
  (0 <=? index) && (index <? Z.of_nat (List.length collection)).

Definition removeAt {A : Type} (i : nat) (l : list A) : list A :=
  firstn i l ++ skipn (S i) l.

Definition insertAt {A : Type} (i : nat) (x : A) (l : list A) : list A :=
  firstn i l ++ x :: skipn i l.

Fixpoint replaceAt {A : Type} (i : nat) (x : A) (l : list A) : list A :=
  match l, i with
  | [], _ => []
  | _ :: rest, O => x :: rest
  | y :: rest, S j => y :: replaceAt j x rest
  end.

(** "fails with IndexOutOfRange if index not in [0, length); otherwise
    deletes the entry, shifting all later entries one position
    earlier." *)
Definition remove (index : Z) (collection : list FileEntry)
  : result (list FileEntry) :=
  if inRange index collection then Ok (removeAt (Z.to_nat index) collection)
  else Fail IndexOutOfRange.

(** "fails with IndexOutOfRange if invalid; otherwise overwrites
    className verbatim." *)
Definition setClassName (index : Z) (value : string) (collection : list FileEntry)
  : result (list FileEntry) :=
  if inRange index collection then
    match nth_error collection (Z.to_nat index) with
    | Some entry =>
        Ok (replaceAt (Z.to_nat index) (mkEntry (file entry) value) collection)
    | None => Fail IndexOutOfRange
    end
  else Fail IndexOutOfRange.

(** "remove the entry at sourceIndex from the sequence, then insert it
    at position targetIndex of the resulting (already-shortened)
    sequence." *)
Definition move (sourceIndex targetIndex : nat) (collection : list FileEntry)
  : list FileEntry :=
  match nth_error collection sourceIndex with
  | Some entry => insertAt targetIndex entry (removeAt sourceIndex collection)
  | None => collection
  end.

(** "one of Idle | InFlight | Succeeded(archiveHandle) | Failed(message)". *)
Inductive RequestState : Type :=
| Idle
| InFlight
| Succeeded (archiveHandle : ObjectURL)
| Failed (message : string).

(** The request-state values a component state exhibits: the spinner
    of [isLoading], the banner of [error], the download section of
    [downloadUrl]; [Idle] when it shows none of them. *)
Definition liveRequestStates (s : State) : list RequestState :=
  let shown :=
    (if isLoading s then [InFlight] else [])
      ++ match downloadUrl s with Some u => [Succeeded u] | None => [] end
      ++ match error s with Some m => [Failed m] | None => [] end in
  match shown with
  | [] => [Idle]
  | _ => shown
  end.

End Spec.

(* ================================================================== *)
(** * Properties under study and sample sessions *)
(* ================================================================== *)

Module Scenario.
Import App Ui.

(** The request-state cells show one value of the request state. *)
Definition oneRequestStateLive (s : State) : Prop :=
  exists r, Spec.liveRequestStates s = [r].

(** No more than one archive handle is live in the document. *)
Definition atMostOneLiveHandle (w : World) : Prop :=
  (List.length (objectURLs w) <= 1)%nat.

(** The pending requests agree with the spinner: one while [isLoading],
    none otherwise. *)
Definition pendingMatchesLoading (w : World) : Prop :=
  List.length (pending w) = if isLoading (ui w) then 1%nat else 0%nat.

(** The stored download URL, when there is one, is live. *)
Definition downloadUrlLive (w : World) : Prop :=
  forall u, downloadUrl (ui w) = Some u -> In u (List.map fst (objectURLs w)).

Definition sampleFile (name : string) : File := mkFile name 1024 "image/jpeg".

Definition sampleEntries : list FileEntry :=
  [mkEntry (sampleFile "a.jpg") "a"; mkEntry (sampleFile "b.jpg") "b";
   mkEntry (sampleFile "c.jpg") "c"; mkEntry (sampleFile "d.jpg") "d"].

Definition singleEntry : list FileEntry := [mkEntry (sampleFile "a.jpg") "a"].

Definition singleEntryWorld : World :=
  withUi (setFiles (fun _ => singleEntry)) initialWorld.

Definition sampleWorld : World :=
  withUi (setFiles (fun _ => sampleEntries)) initialWorld.

(** Scenario A: three labelled images and five augmentations each. *)
Definition scenarioA : World :=
  withUi (setNumImages (Js.Int 5))
    (withUi (setFiles (fun _ =>
       [mkEntry (sampleFile "cat.jpg") "cat"; mkEntry (sampleFile "dog.jpg") "dog";
        mkEntry (sampleFile "bird.jpg") "bird"])) initialWorld).

(** One image is dropped, labelled and submitted. *)
Definition submitOnce : list Event :=
  [FilesDropped [sampleFile "cat.jpg"]; ClassNameTyped 0 "cat"; SubmitClicked].

(** The world while that request is in flight. *)
Definition inFlightWorld : World :=
  handleSubmit (handleClassNameChange 0 "cat" (onDrop [sampleFile "cat.jpg"] initialWorld)).

(** ... and its archive arrives. *)
Definition firstDownload : list Event :=
  submitOnce ++ [ResponseArrived "PK.."].

Definition downloadReadyWorld : World :=
  handleSubmitFulfilled "PK.." (settle inFlightWorld).

(** Two images, labelled, submitted and answered. *)
Definition pairDownloadReadyWorld : World :=
  handleSubmitFulfilled "PK.."
    (settle
       (handleSubmit
          (handleClassNameChange 1 "dog"
             (handleClassNameChange 0 "cat"
                (onDrop [sampleFile "cat.jpg"; sampleFile "dog.jpg"] initialWorld))))).

(** ... then the label is overwritten with a blank and the form is
    submitted again. *)
Definition blankLabelAfterDownload : list Event :=
  firstDownload ++ [ClassNameTyped 0 " "; SubmitClicked].

(** ... or the same collection is submitted a second time. *)
Definition secondDownload : list Event :=
  firstDownload ++ [SubmitClicked; ResponseArrived "PK.."].

End Scenario.

(* ================================================================== *)
(** * The single-image variant of the component *)
(* ================================================================== *)

(** The second source file holds an earlier [App]: one [File | null]
    cell instead of the array, one class name for it, the same request
    lifecycle. *)
Module SingleImage.

(** Its six [useState] cells, lines 8-13. *)
Record State : Type := mkState {
  file : option File;
  numImages : Js.number;
  className : string;
  isLoading : bool;
  error : option string;
  downloadUrl : option ObjectURL
}.

Record World : Type := mkWorld {
  ui : State;
  posted : list Request;
  pending : list Request;
  objectURLs : list (ObjectURL * Blob);
  nextObjectURL : nat;
  consoleErrors : nat
}.

Definition initialState : State :=
  mkState None (Js.Int 10) "object" false None None.

Definition initialWorld : World :=
  mkWorld initialState [] [] [] 0 0.

Definition setFile (f : option File) (s : State) : State :=
  mkState f (numImages s) (className s) (isLoading s) (error s) (downloadUrl s).

Definition setNumImages (n : Js.number) (s : State) : State :=
  mkState (file s) n (className s) (isLoading s) (error s) (downloadUrl s).

Definition setClassName (c : string) (s : State) : State :=
  mkState (file s) (numImages s) c (isLoading s) (error s) (downloadUrl s).

Definition setIsLoading (b : bool) (s : State) : State :=
  mkState (file s) (numImages s) (className s) b (error s) (downloadUrl s).

Definition setError (e : option string) (s : State) : State :=
  mkState (file s) (numImages s) (className s) (isLoading s) e (downloadUrl s).

Definition setDownloadUrl (u : option ObjectURL) (s : State) : State :=
  mkState (file s) (numImages s) (className s) (isLoading s) (error s) u.

Definition withUi (f : State -> State) (w : World) : World :=
  mkWorld (f (ui w)) (posted w) (pending w)
          (objectURLs w) (nextObjectURL w) (consoleErrors w).

Definition post (r : Request) (w : World) : World :=
  mkWorld (ui w) (posted w ++ [r]) (pending w ++ [r])
          (objectURLs w) (nextObjectURL w) (consoleErrors w).

Definition createObjectURL (b : Blob) (w : World) : ObjectURL * World :=
  let u := BlobURL (nextObjectURL w) in
  (u, mkWorld (ui w) (posted w) (pending w)
              (objectURLs w ++ [(u, b)]) (S (nextObjectURL w)) (consoleErrors w)).

Definition consoleError (w : World) : World :=
  mkWorld (ui w) (posted w) (pending w)
          (objectURLs w) (nextObjectURL w) (S (consoleErrors w)).

Definition settle (w : World) : World :=
  mkWorld (ui w) (posted w) (tl (pending w))
          (objectURLs w) (nextObjectURL w) (consoleErrors w).

(** [useDropzone({ onDrop })], lines 20-24.  [acceptedFiles[0]] of an
    empty array is [undefined], which every later test ([!file],
    [file ? .. : ..]) treats as it treats [null]. *)
Definition onDrop (acceptedFiles : list File) (w : World) : World :=
  let w := withUi (setFile (nth_error acceptedFiles 0)) w in
  let w := withUi (setError None) w in
  withUi (setDownloadUrl None) w.

Definition serviceUrl : string := "http://localhost:8000/augment/".

(** Lines 40-43. *)
Definition buildFormData (f : File) (s : State) : FormData.t :=
  let formData := FormData.empty in
  let formData := FormData.append "file" (FormData.FileValue f) formData in
  let formData :=
    FormData.append "num_images"
                    (FormData.StringValue (Js.toString (numImages s))) formData in
  FormData.append "class_name" (FormData.StringValue (className s)) formData.

(** [handleSubmit] up to its [await], lines 27-50. *)
Definition handleSubmit (w : World) : World :=
  let s := ui w in
  match file s with
  | None => withUi (setError (Some "Please select an image file")) w
  | Some f =>
      let w := withUi (setIsLoading true) w in
      let w := withUi (setError None) w in
      let w := withUi (setDownloadUrl None) w in
      let formData := buildFormData f s in
      post (mkRequest serviceUrl formData) w
  end.

(** After the [await], fulfilled: lines 53-54 and line 59. *)
Definition handleSubmitFulfilled (data : Blob) (w : World) : World :=
  let '(url, w) := createObjectURL data w in
  let w := withUi (setDownloadUrl (Some url)) w in
  withUi (setIsLoading false) w.

(** After the [await], rejected: lines 56-57 and line 59. *)
Definition handleSubmitRejected (w : World) : World :=
  let w := withUi (setError (Some "Error processing image. Please try again.")) w in
  let w := consoleError w in
  withUi (setIsLoading false) w.

(** [disabled={isLoading || !file}], line 116. *)
Definition submitDisabled (s : State) : bool :=
  isLoading s || match file s with Some _ => false | None => true end.

(** [type="number" min="1" max="100"] of the count input, lines 92-100,
    read as in the multi-image component: [NaN] leaves the field empty
    and valid, a number outside 1..100 makes constraint validation
    withhold the submit event. *)
Definition countValid (s : State) : bool :=
  match numImages s with
  | Js.NaN => true
  | Js.Int z => (1 <=? z) && (z <=? 100)
  end.

(** [disabled={isLoading}] of both inputs, lines 99 and 110. *)
Definition inputDisabled (s : State) : bool := isLoading s.

Inductive Event : Type :=
| FilesDropped (acceptedFiles : list File)
| NumImagesTyped (parsed : Js.number)
| ClassNameTyped (value : string)
| SubmitClicked
| ResponseArrived (data : Blob)
| RequestFailed.

(** One turn of the event loop, with the same conventions as [Ui.step]. *)
Definition step (ev : Event) (w : World) : option World :=
  match ev with
  | FilesDropped acceptedFiles => Some (onDrop acceptedFiles w)
  | NumImagesTyped parsed =>
      if inputDisabled (ui w) then Some w
      else Some (withUi (setNumImages parsed) w)
  | ClassNameTyped value =>
      if inputDisabled (ui w) then Some w
      else Some (withUi (setClassName value) w)
  | SubmitClicked =>
      if submitDisabled (ui w) || negb (countValid (ui w)) then Some w
      else Some (handleSubmit w)
  | ResponseArrived data =>
      match pending w with
      | [] => None
      | _ :: _ => Some (handleSubmitFulfilled data (settle w))
      end
  | RequestFailed =>
      match pending w with
      | [] => None
      | _ :: _ => Some (handleSubmitRejected (settle w))
      end
  end.

Inductive reachable : World -> Prop :=
| reachable_init : reachable initialWorld
| reachable_step : forall w ev w',
    reachable w -> step ev w = Some w' -> reachable w'.

(** The request-state cells hold at most one of: loading, an error, a
    download. *)
Definition exclusive (s : State) : Prop :=
  match isLoading s, error s, downloadUrl s with
  | true, None, None => True
  | false, Some _, None => True
  | false, None, Some _ => True
  | false, None, None => True
  | _, _, _ => False
  end.

(** The request cells are exclusive and the pending request follows the
    spinner. *)
Definition settled (w : World) : Prop :=
  exclusive (ui w)
  /\ List.length (pending w) = if isLoading (ui w) then 1%nat else 0%nat.

Definition sampleImage : File := mkFile "cat.jpg" 2048 "image/jpeg".

End SingleImage.

(* ================================================================== *)
(** * Further properties of the multi-image component *)
(* ================================================================== *)

Module Checks.
Import App.

(** A request the service can pair up: at least one [files] field, as
    many [class_names] as [files], no class name that trims to the
    empty string, one [num_images]. *)
Definition wellFormed (r : Request) : Prop :=
  FormData.getAll "files" (body r) <> []
  /\ List.length (FormData.getAll "class_names" (body r)) =
       List.length (FormData.getAll "files" (body r))
  /\ (forall s, In (FormData.StringValue s) (FormData.getAll "class_names" (body r)) ->
                Js.trim s <> EmptyString)
  /\ List.length (FormData.getAll "num_images" (body r)) = 1%nat.

(** While the spinner shows, neither the banner nor the download does. *)
Definition quietWhileLoading (s : State) : Prop :=
  isLoading s = true -> error s = None /\ downloadUrl s = None.

(** The fields of one entry on the wire. *)
Definition entryFields (item : FileEntry) : FormData.t :=
  [("files", FormData.FileValue (file item));
   ("class_names", FormData.StringValue (className item))].

End Checks.

(* ================================================================== *)
(** * Facts about the prelude *)
(* ================================================================== *)

Module JsFacts.
Import Js.

Lemma trimEnd_empty (s : string) : trimEnd s = EmptyString <-> blank s = true.
Proof.
  induction s as [|c rest IH]; cbn [trimEnd blank].
  - tauto.
  - destruct (trimEnd rest) eqn:Hrest.
    + destruct (isWhiteSpace c); cbn [andb].
      * rewrite <- IH. tauto.
      * split; discriminate.
    + split; [discriminate|].
      intros Hb. apply andb_prop in Hb. destruct Hb as [_ Hb].
      apply IH in Hb. discriminate.
Qed.

Lemma blank_trimStart (s : string) : blank (trimStart s) = blank s.
Proof.
  induction s as [|c rest IH]; cbn [trimStart blank].
  - reflexivity.
  - destruct (isWhiteSpace c) eqn:Hc; cbn [andb blank].
    + exact IH.
    + now rewrite Hc.
Qed.

(** A string trims to nothing exactly when it is white space only. *)
Lemma trim_empty (s : string) : trim s = EmptyString <-> blank s = true.
Proof. unfold trim. now rewrite trimEnd_empty, blank_trimStart. Qed.

Lemma not_true (s : string) : not s = true <-> s = EmptyString.
Proof. destruct s; cbn; split; congruence. Qed.

Lemma trimEnd_digits (d : uint) :
  trimEnd (NilEmpty.string_of_uint d) = NilEmpty.string_of_uint d.
Proof.
  induction d; simpl; try reflexivity;
    rewrite IHd; destruct (NilEmpty.string_of_uint d); reflexivity.
Qed.

Lemma trimStart_digits (d : uint) :
  trimStart (NilEmpty.string_of_uint d) = NilEmpty.string_of_uint d.
Proof. destruct d; reflexivity. Qed.

Lemma NilZero_digits (d : uint) :
  d <> Nil -> NilZero.string_of_uint d = NilEmpty.string_of_uint d.
Proof. destruct d; congruence || reflexivity. Qed.

Lemma Number_digits (d : uint) :
  d <> Nil -> Number (NilEmpty.string_of_uint d) = Int (Z.of_uint d).
Proof.
  intros Hd. unfold Number, trim.
  rewrite trimStart_digits, trimEnd_digits.
  pose proof (NilZero.usu d Hd) as Hparse.
  rewrite (NilZero_digits d Hd) in Hparse.
  destruct d; try congruence; cbn [NilEmpty.string_of_uint] in *;
    cbn [Ascii.eqb Bool.eqb]; unfold ofDigits; now rewrite Hparse.
Qed.

Lemma Number_minus_digits (d : uint) :
  d <> Nil ->
  Number (String "-" (NilEmpty.string_of_uint d)) = Int (- Z.of_uint d).
Proof.
  intros Hd. unfold Number, trim.
  cbn [trimStart]. change (isWhiteSpace "-") with false. cbn iota.
  cbn [trimEnd]. rewrite trimEnd_digits.
  pose proof (NilZero.usu d Hd) as Hparse.
  rewrite (NilZero_digits d Hd) in Hparse.
  destruct d; try congruence; cbn [NilEmpty.string_of_uint] in *;
    cbn [Ascii.eqb Bool.eqb]; unfold ofDigits; now rewrite Hparse.
Qed.

(** [Number] reads back what [toString] wrote. *)
Lemma Number_toString (z : Z) : Number (toString (Int z)) = Int z.
Proof.
  destruct z as [|p|p]; cbn [toString Z.to_int NilZero.string_of_int].
  - reflexivity.
  - pose proof (DecimalPos.Unsigned.to_uint_nonnil p) as Hn.
    rewrite NilZero_digits, Number_digits by assumption.
    unfold Z.of_uint. now rewrite DecimalPos.Unsigned.of_to.
  - pose proof (DecimalPos.Unsigned.to_uint_nonnil p) as Hn.
    rewrite NilZero_digits, Number_minus_digits by assumption.
    unfold Z.of_uint. now rewrite DecimalPos.Unsigned.of_to.
Qed.

Section ArrayFacts.
Context {A : Type}.
Implicit Types (l arr : list A) (i : nat).

Lemma skipn_nth_error l i x :
  nth_error l i = Some x -> skipn i l = x :: skipn (S i) l.
Proof.
  revert i. induction l as [|y l IH]; intros [|i] H; cbn in *;
    try discriminate.
  - now injection H as ->.
  - now apply IH.
Qed.

Lemma relativeIndex_nat (len i : nat) :
  (i <= len)%nat -> relativeIndex len (Z.of_nat i) = i.
Proof.
  intros Hi. unfold relativeIndex.
  destruct (Z.ltb_spec (Z.of_nat i) 0); lia.
Qed.

(** [splice(i, 1)] at a position that holds an element. *)
Lemma splice_delete_one arr i x :
  nth_error arr i = Some x ->
  splice arr (Int (Z.of_nat i)) 1 [] =
    ([x], firstn i arr ++ skipn (S i) arr).
Proof.
  intros Hx.
  assert (Hlt : (i < List.length arr)%nat)
    by (apply nth_error_Some; congruence).
  unfold splice. cbn [toIntegerOrInfinity].
  rewrite relativeIndex_nat by lia.
  replace (Z.to_nat (Z.min (Z.max 1 0) (Z.of_nat (List.length arr - i))))
    with 1%nat by lia.
  rewrite (skipn_nth_error _ _ _ Hx). cbn [firstn app].
  now rewrite Nat.add_1_r.
Qed.

(** [splice(i, 0, x)] at a position inside the array or at its end. *)
Lemma splice_insert_one arr i x :
  (i <= List.length arr)%nat ->
  splice arr (Int (Z.of_nat i)) 0 [x] =
    ([], firstn i arr ++ x :: skipn i arr).
Proof.
  intros Hi. unfold splice. cbn [toIntegerOrInfinity].
  rewrite relativeIndex_nat by lia.
  replace (Z.to_nat (Z.min (Z.max 0 0) (Z.of_nat (List.length arr - i))))
    with 0%nat by lia.
  now rewrite Nat.add_0_r.
Qed.

(** [filter] with the test [i !== index], positions counted from [k]. *)
Lemma filterFrom_miss (index k : Z) l :
  index < k \/ k + Z.of_nat (List.length l) <= index ->
  filterFrom (fun _ j => negb (j =? index)) k l = l.
Proof.
  revert k. induction l as [|y l IH]; intros k Hout; cbn [filterFrom].
  - reflexivity.
  - cbn [List.length] in Hout.
    destruct (Z.eqb_spec k index); [lia|]. cbn [negb].
    f_equal. apply IH. lia.
Qed.

Lemma filterFrom_hit (index k : Z) l :
  k <= index < k + Z.of_nat (List.length l) ->
  filterFrom (fun _ j => negb (j =? index)) k l =
    firstn (Z.to_nat (index - k)) l ++ skipn (S (Z.to_nat (index - k))) l.
Proof.
  revert k. induction l as [|y l IH]; intros k Hin; cbn [List.length] in Hin.
  - lia.
  - cbn [filterFrom]. destruct (Z.eqb_spec k index) as [->|Hne]; cbn [negb].
    + rewrite Z.sub_diag. cbn [Z.to_nat firstn skipn app].
      apply filterFrom_miss. lia.
    + replace (Z.to_nat (index - k)) with (S (Z.to_nat (index - (k + 1)))) by lia.
      rewrite firstn_cons, (skipn_cons (S (Z.to_nat (index - (k + 1))))).
      rewrite <- app_comm_cons. f_equal. apply IH. lia.
Qed.

(** [map] with an update at [i === index], positions counted from [k]. *)
Lemma mapFrom_miss (f : A -> A) (index k : Z) l :
  index < k \/ k + Z.of_nat (List.length l) <= index ->
  mapFrom (fun item j => if j =? index then f item else item) k l = l.
Proof.
  revert k. induction l as [|y l IH]; intros k Hout; cbn [mapFrom].
  - reflexivity.
  - cbn [List.length] in Hout.
    destruct (Z.eqb_spec k index); [lia|].
    f_equal. apply IH. lia.
Qed.

Lemma mapFrom_nth_error (f : A -> A) (index k : Z) l i :
  nth_error (mapFrom (fun item j => if j =? index then f item else item) k l) i =
    if k + Z.of_nat i =? index then option_map f (nth_error l i)
    else nth_error l i.
Proof.
  revert k i. induction l as [|y l IH]; intros k [|i]; cbn [mapFrom nth_error].
  - now destruct (_ =? _).
  - now destruct (_ =? _).
  - rewrite Z.add_0_r. now destruct (k =? index).
  - rewrite IH. now replace (k + 1 + Z.of_nat i) with (k + Z.of_nat (S i)) by lia.
Qed.

Lemma mapFrom_length {B : Type} (g : A -> Z -> B) (k : Z) l :
  List.length (mapFrom g k l) = List.length l.
Proof.
  revert k. induction l as [|y l IH]; intros k; cbn; [reflexivity|].
  now rewrite IH.
Qed.
End ArrayFacts.

Lemma getAll_app (name : string) (fd fd' : FormData.t) :
  FormData.getAll name (fd ++ fd') =
    FormData.getAll name fd ++ FormData.getAll name fd'.
Proof.
  induction fd as [|[n v] fd IH]; simpl.
  - reflexivity.
  - rewrite IH. now destruct (String.eqb n name).
Qed.

End JsFacts.

(* ================================================================== *)
(** * Handler lemmas shared by the theorems *)
(* ================================================================== *)

Module AppFacts.
Import App Ui.

Lemma getData_setData (format data : string) (w : World) :
  getData format (dataTransfer (setData format data w)) = data.
Proof. cbn. now rewrite String.eqb_refl. Qed.

(** The [sourceIndex] a drop reads after [handleDragStart index]. *)
Lemma sourceIndex_after_dragStart (index : Z) (w : World) :
  Js.Number (getData "index" (dataTransfer (handleDragStart index w))) = Js.Int index.
Proof.
  unfold handleDragStart, withUi. cbn [dataTransfer].
  rewrite getData_setData. apply JsFacts.Number_toString.
Qed.

Lemma nth_error_inRange {A : Type} (l : list A) (index : Z) :
  0 <= index < Z.of_nat (List.length l) ->
  exists x, nth_error l (Z.to_nat index) = Some x.
Proof.
  intros Hi. destruct (nth_error l (Z.to_nat index)) eqn:Hn; [eauto|].
  apply nth_error_None in Hn. lia.
Qed.

Lemma removeAt_length {A : Type} (i : nat) (l : list A) :
  (i < List.length l)%nat ->
  List.length (Spec.removeAt i l) = (List.length l - 1)%nat.
Proof.
  intros Hi. unfold Spec.removeAt.
  rewrite length_app, length_firstn, length_skipn. lia.
Qed.

Lemma nth_error_removeAt {A : Type} (l : list A) (i j : nat) :
  nth_error (Spec.removeAt i l) j =
    if (j <? i)%nat then nth_error l j else nth_error l (S j).
Proof.
  unfold Spec.removeAt. revert i j.
  induction l as [|y l IH]; intros i j.
  - rewrite firstn_nil, skipn_nil. cbn [app].
    destruct (j <? i)%nat; now destruct j.
  - destruct i as [|i].
    + reflexivity.
    + rewrite firstn_cons, skipn_cons, <- app_comm_cons.
      destruct j as [|j]; [reflexivity|].
      cbn [nth_error]. rewrite IH. reflexivity.
Qed.

Lemma replaceAt_nth_error {A : Type} (l : list A) (i j : nat) (x : A) :
  nth_error (Spec.replaceAt i x l) j =
    if (j =? i)%nat then option_map (fun _ => x) (nth_error l j) else nth_error l j.
Proof.
  revert i j. induction l as [|y l IH]; intros i j.
  - destruct i, j; cbn [Spec.replaceAt nth_error option_map];
      now destruct (_ =? _)%nat.
  - destruct i as [|i], j as [|j];
      cbn [Spec.replaceAt nth_error option_map Nat.eqb]; try reflexivity.
    apply IH.
Qed.

(** Two lists with the same elements at every position are equal. *)
Lemma nth_error_ext {A : Type} (l l' : list A) :
  (forall j, nth_error l j = nth_error l' j) -> l = l'.
Proof.
  revert l'. induction l as [|y l IH]; intros [|y' l'] H.
  - reflexivity.
  - specialize (H 0%nat). discriminate.
  - specialize (H 0%nat). discriminate.
  - pose proof (H 0%nat) as H0. cbn in H0. injection H0 as ->.
    f_equal. apply IH. intros j. exact (H (S j)).
Qed.

(** The updater of [handleDrop] on two positions of the array. *)
Lemma dropUpdater_move (prev : list FileEntry) (sourceIndex targetIndex : Z) :
  0 <= sourceIndex < Z.of_nat (List.length prev) ->
  0 <= targetIndex < Z.of_nat (List.length prev) ->
  dropUpdater (Js.Int sourceIndex) targetIndex prev =
    Some (Spec.move (Z.to_nat sourceIndex) (Z.to_nat targetIndex) prev).
Proof.
  intros Hs Ht.
  destruct (nth_error_inRange prev sourceIndex Hs) as [x Hx].
  unfold dropUpdater, Spec.move. rewrite Hx.
  rewrite <- (Z2Nat.id sourceIndex) at 1 by lia.
  rewrite (JsFacts.splice_delete_one _ _ _ Hx).
  rewrite <- (Z2Nat.id targetIndex) at 1 by lia.
  fold (Spec.removeAt (Z.to_nat sourceIndex) prev).
  rewrite JsFacts.splice_insert_one.
  - reflexivity.
  - rewrite removeAt_length by lia. lia.
Qed.

(** What [handleDrop] leaves alone whenever it returns. *)
Lemma handleDrop_frame (targetIndex : Z) (w w' : World) :
  handleDrop targetIndex w = Some w' ->
  isLoading (ui w') = isLoading (ui w)
  /\ error (ui w') = error (ui w)
  /\ downloadUrl (ui w') = downloadUrl (ui w)
  /\ numImages (ui w') = numImages (ui w)
  /\ posted w' = posted w
  /\ pending w' = pending w
  /\ objectURLs w' = objectURLs w
  /\ nextObjectURL w' = nextObjectURL w.
Proof.
  unfold handleDrop.
  destruct (Js.strictEq _ _).
  - intros [= <-]. repeat split.
  - destruct (dropUpdater _ _ _); [|discriminate].
    intros [= <-]. repeat split.
Qed.

(** Case analysis on one turn of the event loop: every guard of [step]
    is split and the resulting world is substituted. *)
Ltac step_cases H :=
  unfold step in H;
  repeat match type of H with
    | (if ?c then _ else _) = Some _ => destruct c eqn:?
    | match pending ?w with _ => _ end = Some _ => destruct (pending w) eqn:?
    end;
  try discriminate;
  try (injection H as H; subst).

Lemma run_app (events events' : list Event) (w : World) :
  run (events ++ events') w =
    match run events w with
    | Some w' => run events' w'
    | None => None
    end.
Proof.
  revert w. induction events as [|ev events IH]; intros w.
  - reflexivity.
  - rewrite <- app_comm_cons. cbn [run].
    destruct (step ev w); [apply IH|reflexivity].
Qed.

Lemma run_reachable (events : list Event) (w w' : World) :
  reachable w -> run events w = Some w' -> reachable w'.
Proof.
  revert w. induction events as [|ev events IH]; intros w Hw; cbn [run].
  - now intros [= <-].
  - destruct (step ev w) as [w1|] eqn:Hstep; [|discriminate].
    apply IH. exact (reachable_step _ _ _ Hw Hstep).
Qed.

(** The spinner and the pending request stay in step. *)
Lemma step_pendingMatchesLoading (ev : Event) (w w' : World) :
  Scenario.pendingMatchesLoading w -> step ev w = Some w' ->
  Scenario.pendingMatchesLoading w'.
Proof.
  unfold Scenario.pendingMatchesLoading. intros Hinv Hstep.
  destruct ev; try (step_cases Hstep; cbn; assumption).
  - (* DroppedOn *)
    unfold step in Hstep. destruct (rendered _ _); [|discriminate].
    apply handleDrop_frame in Hstep.
    destruct Hstep as (-> & _ & _ & _ & _ & -> & _). exact Hinv.
  - (* SubmitClicked *)
    step_cases Hstep; [assumption|].
    match goal with
    | Hg : submitDisabled _ || _ = false |- _ =>
        apply orb_false_elim in Hg; destruct Hg as [Hdis _];
        unfold submitDisabled in Hdis; apply orb_false_elim in Hdis;
        destruct Hdis as [Hload Hlen]
    end.
    rewrite Hload in Hinv.
    unfold handleSubmit. rewrite Hlen.
    destruct (Js.some _ _); cbn.
    + now rewrite Hload.
    + rewrite length_app. cbn. lia.
  - (* ResponseArrived *)
    step_cases Hstep. cbn.
    match goal with Hp : pending _ = _ |- _ => rewrite Hp in *; cbn in * end.
    destruct (isLoading (ui w)); cbn in Hinv; lia.
  - (* RequestFailed *)
    step_cases Hstep. cbn.
    match goal with Hp : pending _ = _ |- _ => rewrite Hp in *; cbn in * end.
    destruct (isLoading (ui w)); cbn in Hinv; lia.
Qed.

Lemma reachable_pendingMatchesLoading (w : World) :
  reachable w -> Scenario.pendingMatchesLoading w.
Proof.
  induction 1 as [|w ev w' _ IH Hstep].
  - reflexivity.
  - exact (step_pendingMatchesLoading _ _ _ IH Hstep).
Qed.

(** A turn of the event loop adds an object URL when a response is
    delivered and removes none. *)
Lemma step_objectURLs (ev : Event) (w w' : World) :
  step ev w = Some w' ->
  objectURLs w' =
    objectURLs w ++
      match ev with
      | ResponseArrived data => [(BlobURL (nextObjectURL w), data)]
      | _ => []
      end.
Proof.
  intros Hstep.
  destruct ev; try (step_cases Hstep; cbn; now rewrite ?app_nil_r).
  - unfold step in Hstep. destruct (rendered _ _); [|discriminate].
    apply handleDrop_frame in Hstep.
    destruct Hstep as (_ & _ & _ & _ & _ & _ & -> & _). now rewrite app_nil_r.
  - step_cases Hstep; [now rewrite app_nil_r|].
    unfold handleSubmit.
    destruct (_ =? _)%nat; [cbn; now rewrite app_nil_r|].
    destruct (Js.some _ _); cbn; now rewrite app_nil_r.
Qed.

Lemma step_downloadUrlLive (ev : Event) (w w' : World) :
  Scenario.downloadUrlLive w -> step ev w = Some w' -> Scenario.downloadUrlLive w'.
Proof.
  unfold Scenario.downloadUrlLive. intros Hinv Hstep u.
  pose proof (step_objectURLs _ _ _ Hstep) as Hurls. rewrite Hurls.
  rewrite map_app, in_app_iff.
  destruct ev; try (step_cases Hstep; cbn; solve [auto | discriminate]).
  - unfold step in Hstep. destruct (rendered _ _); [|discriminate].
    apply handleDrop_frame in Hstep.
    destruct Hstep as (_ & _ & -> & _). auto.
  - step_cases Hstep; [auto|].
    unfold handleSubmit.
    destruct (_ =? _)%nat; [cbn; auto|].
    destruct (Js.some _ _); cbn; auto; discriminate.
  - step_cases Hstep. cbn. intros [= <-]. right. now left.
Qed.

End AppFacts.

(* ================================================================== *)
(** * The collection: reordering, removal, labels, ingestion *)
(* ================================================================== *)

Section Collection.
Import App Ui Scenario.

(** C2.  For two distinct positions of the collection, dragging the
    item at [sourceIndex] and dropping it on the item at [targetIndex]
    is the splice-move: the entry is removed at [sourceIndex] and put
    back at position [targetIndex] of the shortened sequence.  On
    [A,B,C,D], moving 0 to 2 gives [B,C,A,D] and moving 3 to 0 gives
    [D,A,B,C]. *)
Theorem handleDrop_splice_move (w : World) (sourceIndex targetIndex : Z) :
  0 <= sourceIndex < Z.of_nat (List.length (files (ui w))) ->
  0 <= targetIndex < Z.of_nat (List.length (files (ui w))) ->
  sourceIndex <> targetIndex ->
  (exists w' moved,
      handleDrop targetIndex (handleDragStart sourceIndex w) = Some w'
      /\ nth_error (files (ui w)) (Z.to_nat sourceIndex) = Some moved
      /\ files (ui w') =
           Spec.insertAt (Z.to_nat targetIndex) moved
             (Spec.removeAt (Z.to_nat sourceIndex) (files (ui w))))
  /\ (forall A B C D : FileEntry,
         dropUpdater (Js.Int 0) 2 [A; B; C; D] = Some [B; C; A; D]
         /\ dropUpdater (Js.Int 3) 0 [A; B; C; D] = Some [D; A; B; C]).
Proof.
  intros Hs Ht Hne. split.
  - unfold handleDrop.
    rewrite AppFacts.sourceIndex_after_dragStart. cbn [Js.strictEq].
    destruct (Z.eqb_spec sourceIndex targetIndex) as [|_]; [contradiction|].
    change (files (ui (handleDragStart sourceIndex w))) with (files (ui w)).
    rewrite AppFacts.dropUpdater_move by assumption.
    destruct (AppFacts.nth_error_inRange _ _ Hs) as [x Hx].
    eexists. exists x. split; [reflexivity|]. split; [exact Hx|].
    cbn [withUi ui setFiles setActiveDragIndex files].
    unfold Spec.move. now rewrite Hx.
  - intros A B C D. split; reflexivity.
Qed.

Lemma handleDrop_splice_move_witness :
  (0 <= 0 < Z.of_nat (List.length (files (ui sampleWorld))))
  /\ (0 <= 2 < Z.of_nat (List.length (files (ui sampleWorld))))
  /\ exists w',
      handleDrop 2 (handleDragStart 0 sampleWorld) = Some w'
      /\ List.map className (files (ui w')) = ["b"; "c"; "a"; "d"].
Proof.
  assert (H0 : 0 <= 0 < Z.of_nat (List.length (files (ui sampleWorld))))
    by (vm_compute; split; [discriminate|reflexivity]).
  assert (H2 : 0 <= 2 < Z.of_nat (List.length (files (ui sampleWorld))))
    by (vm_compute; split; [discriminate|reflexivity]).
  split; [exact H0|]. split; [exact H2|].
  destruct (handleDrop_splice_move sampleWorld 0 2 H0 H2) as [[w' [x [Hrun [Hx Hfiles]]]] _].
  - discriminate.
  - exists w'. split; [exact Hrun|]. rewrite Hfiles.
    vm_compute in Hx. injection Hx as <-. vm_compute. reflexivity.
Defined.

(** C7, as the code has it.  A drop on the item the drag started from
    returns at line 53: the collection is unchanged, and so is the
    active index, which stays on the dragged item; line 62, which
    clears it, is reached on the moving branch only. *)
Theorem handleDrop_same_index_returns_early (w : World) (index : Z) :
  handleDrop index (handleDragStart index w) = Some (handleDragStart index w)
  /\ files (ui (handleDragStart index w)) = files (ui w)
  /\ activeDragIndex (ui (handleDragStart index w)) = Some index
  /\ (forall targetIndex w',
         index <> targetIndex ->
         handleDrop targetIndex (handleDragStart index w) = Some w' ->
         activeDragIndex (ui w') = None).
Proof.
  split; [|split; [reflexivity|split; [reflexivity|]]].
  - unfold handleDrop. rewrite AppFacts.sourceIndex_after_dragStart.
    cbn [Js.strictEq]. now rewrite Z.eqb_refl.
  - intros targetIndex w' Hne. unfold handleDrop.
    rewrite AppFacts.sourceIndex_after_dragStart. cbn [Js.strictEq].
    destruct (Z.eqb_spec index targetIndex) as [|_]; [contradiction|].
    destruct (dropUpdater _ _ _); [|discriminate].
    now intros [= <-].
Qed.

(** C6, the claim as written fails: on a one-entry collection, index 1
    is out of range, the reference operations fail with
    [IndexOutOfRange], and the handlers return the collection as it
    was. *)
Lemma index_out_of_range_is_not_reported :
  Spec.remove 1 singleEntry = Spec.Fail Spec.IndexOutOfRange
  /\ Spec.setClassName 1 "x" singleEntry = Spec.Fail Spec.IndexOutOfRange
  /\ Spec.remove 1 singleEntry <> Spec.Ok (removeUpdater 1 singleEntry)
  /\ Spec.setClassName 1 "x" singleEntry <> Spec.Ok (classNameUpdater 1 "x" singleEntry)
  /\ files (ui (removeFile 1 singleEntryWorld)) = singleEntry
  /\ files (ui (handleClassNameChange 1 "x" singleEntryWorld)) = singleEntry.
Proof. vm_compute. repeat split; discriminate. Qed.

(** C6, amended.  For an index of the collection, [removeFile] deletes
    that entry and every later entry moves one position earlier, and
    [handleClassNameChange] stores the value verbatim in that entry and
    in no other; both agree with the reference operations.  For any
    other index both return the collection unchanged and report
    nothing. *)
Theorem remove_and_rename_by_index (c : list FileEntry) (index : Z) (value : string) :
  if Spec.inRange index c then
    Spec.remove index c = Spec.Ok (removeUpdater index c)
    /\ Spec.setClassName index value c = Spec.Ok (classNameUpdater index value c)
    /\ (forall j : nat,
           nth_error (removeUpdater index c) j =
             if (j <? Z.to_nat index)%nat then nth_error c j else nth_error c (S j))
    /\ (forall j : nat,
           nth_error (classNameUpdater index value c) j =
             if (j =? Z.to_nat index)%nat
             then option_map (fun entry => mkEntry (file entry) value) (nth_error c j)
             else nth_error c j)
  else
    removeUpdater index c = c /\ classNameUpdater index value c = c.
Proof.
  destruct (Spec.inRange index c) eqn:Hr; unfold Spec.inRange in Hr.
  - apply andb_prop in Hr. destruct Hr as [Hlo Hhi].
    apply Z.leb_le in Hlo. apply Z.ltb_lt in Hhi.
    assert (Hrem : removeUpdater index c = Spec.removeAt (Z.to_nat index) c).
    { unfold removeUpdater, Js.filter. rewrite JsFacts.filterFrom_hit by lia.
      now rewrite Z.sub_0_r. }
    assert (Hnth : forall j : nat,
               nth_error (classNameUpdater index value c) j =
                 if (j =? Z.to_nat index)%nat
                 then option_map (fun entry => mkEntry (file entry) value) (nth_error c j)
                 else nth_error c j).
    { intros j. unfold classNameUpdater, Js.map.
      rewrite (JsFacts.mapFrom_nth_error (fun item => mkEntry (file item) value)).
      rewrite Z.add_0_l.
      destruct (Z.eqb_spec (Z.of_nat j) index), (Nat.eqb_spec j (Z.to_nat index));
        try reflexivity; lia. }
    split; [|split; [|split]].
    + unfold Spec.remove, Spec.inRange.
      rewrite (proj2 (Z.leb_le _ _) Hlo), (proj2 (Z.ltb_lt _ _) Hhi). cbn [andb].
      now rewrite Hrem.
    + unfold Spec.setClassName, Spec.inRange.
      rewrite (proj2 (Z.leb_le _ _) Hlo), (proj2 (Z.ltb_lt _ _) Hhi). cbn [andb].
      destruct (AppFacts.nth_error_inRange c index (conj Hlo Hhi)) as [entry Hentry].
      rewrite Hentry. f_equal. apply AppFacts.nth_error_ext. intros j.
      rewrite Hnth, AppFacts.replaceAt_nth_error.
      destruct (Nat.eqb_spec j (Z.to_nat index)) as [->|_]; [|reflexivity].
      now rewrite Hentry.
    + intros j. rewrite Hrem. apply AppFacts.nth_error_removeAt.
    + exact Hnth.
  - assert (Hout : index < 0 \/ 0 + Z.of_nat (List.length c) <= index).
    { apply andb_false_iff in Hr. destruct Hr as [Hr|Hr].
      - apply Z.leb_gt in Hr. lia.
      - apply Z.ltb_ge in Hr. lia. }
    split.
    + unfold removeUpdater, Js.filter. now apply JsFacts.filterFrom_miss.
    + unfold classNameUpdater, Js.map.
      now apply (JsFacts.mapFrom_miss (fun item => mkEntry (file item) value)).
Qed.

(** C8.  Whatever the state before, dropping accepted files makes one
    entry per file with an empty class name, puts them after the
    entries already there, which keep their positions, and sets both
    [error] and [downloadUrl] to null. *)
Theorem onDrop_appends_and_clears (w : World) (acceptedFiles : list File) :
  files (ui (onDrop acceptedFiles w)) =
    files (ui w) ++ List.map (fun f => mkEntry f EmptyString) acceptedFiles
  /\ List.length (files (ui (onDrop acceptedFiles w))) =
       (List.length (files (ui w)) + List.length acceptedFiles)%nat
  /\ (forall i entry,
         nth_error (files (ui w)) i = Some entry ->
         nth_error (files (ui (onDrop acceptedFiles w))) i = Some entry)
  /\ (forall i f,
         nth_error acceptedFiles i = Some f ->
         nth_error (files (ui (onDrop acceptedFiles w)))
                   (List.length (files (ui w)) + i) = Some (mkEntry f EmptyString))
  /\ error (ui (onDrop acceptedFiles w)) = None
  /\ downloadUrl (ui (onDrop acceptedFiles w)) = None.
Proof.
  cbn. split; [reflexivity|]. split; [|split; [|split; [|split; reflexivity]]].
  - now rewrite length_app, length_map.
  - intros i entry Hi. rewrite nth_error_app1; [exact Hi|].
    apply nth_error_Some. congruence.
  - intros i f Hi. rewrite nth_error_app2 by lia.
    replace (List.length (files (ui w)) + i - List.length (files (ui w)))%nat
      with i by lia.
    now rewrite nth_error_map, Hi.
Qed.

(** C10.  Removing an entry, editing a class name and a drop that
    reorders leave [isLoading], [error] and [downloadUrl] as they were,
    and touch neither the requests nor the object URLs: after a
    successful submission the download link stays in place. *)
Theorem collection_edits_keep_request_state (w : World) (index : Z) (value : string) :
  (isLoading (ui (removeFile index w)) = isLoading (ui w)
   /\ error (ui (removeFile index w)) = error (ui w)
   /\ downloadUrl (ui (removeFile index w)) = downloadUrl (ui w)
   /\ objectURLs (removeFile index w) = objectURLs w
   /\ posted (removeFile index w) = posted w)
  /\ (isLoading (ui (handleClassNameChange index value w)) = isLoading (ui w)
      /\ error (ui (handleClassNameChange index value w)) = error (ui w)
      /\ downloadUrl (ui (handleClassNameChange index value w)) = downloadUrl (ui w)
      /\ objectURLs (handleClassNameChange index value w) = objectURLs w
      /\ posted (handleClassNameChange index value w) = posted w)
  /\ (forall w',
         handleDrop index w = Some w' ->
         isLoading (ui w') = isLoading (ui w)
         /\ error (ui w') = error (ui w)
         /\ downloadUrl (ui w') = downloadUrl (ui w)
         /\ objectURLs w' = objectURLs w
         /\ posted w' = posted w).
Proof.
  split; [repeat split|split; [repeat split|]].
  intros w' Hdrop. apply AppFacts.handleDrop_frame in Hdrop.
  destruct Hdrop as (H1 & H2 & H3 & _ & H5 & _ & H7 & _). auto.
Qed.

Lemma collection_edits_keep_request_state_witness :
  exists w',
    handleDrop 0 (handleDragStart 1 pairDownloadReadyWorld) = Some w'
    /\ List.map className (files (ui w')) = ["dog"; "cat"]
    /\ downloadUrl (ui w') = Some (BlobURL 0).
Proof.
  pose proof (proj2 (proj2 (collection_edits_keep_request_state
                              (handleDragStart 1 pairDownloadReadyWorld) 0 EmptyString)))
    as Hframe.
  destruct (handleDrop 0 (handleDragStart 1 pairDownloadReadyWorld)) as [w'|] eqn:Hrun;
    [|vm_compute in Hrun; discriminate].
  exists w'. destruct (Hframe w' eq_refl) as (_ & _ & Hurl & _).
  split; [reflexivity|]. split.
  - vm_compute in Hrun. injection Hrun as <-. vm_compute. reflexivity.
  - rewrite Hurl. vm_compute. reflexivity.
Defined.

End Collection.

(* ================================================================== *)
(** * Submission: validation, payload, admission, outcome *)
(* ================================================================== *)

Section Submission.
Import App Ui Scenario.

Lemma some_blank_className (c : list FileEntry) :
  Js.some (fun item => Js.not (Js.trim (className item))) c = true <->
  exists item, In item c /\ Js.trim (className item) = EmptyString.
Proof.
  unfold Js.some. rewrite existsb_exists.
  split; intros [item [Hin Hb]]; exists item; split; try assumption;
    now apply JsFacts.not_true.
Qed.

Lemma length_zero_nil {A : Type} (l : list A) :
  (List.length l =? 0)%nat = true <-> l = [].
Proof. destruct l; cbn; split; congruence. Qed.

(** [handleSubmit] past both validation tests. *)
Lemma handleSubmit_accepts (w : World) :
  files (ui w) <> [] ->
  (forall item, In item (files (ui w)) -> Js.trim (className item) <> EmptyString) ->
  handleSubmit w =
    post (mkRequest serviceUrl (buildFormData (ui w)))
         (withUi (setDownloadUrl None)
            (withUi (setError None) (withUi (setIsLoading true) w))).
Proof.
  intros Hne Hall. unfold handleSubmit.
  destruct (List.length (files (ui w)) =? 0)%nat eqn:Hlen.
  - apply length_zero_nil in Hlen. contradiction.
  - destruct (Js.some _ (files (ui w))) eqn:Hsome; [|reflexivity].
    apply some_blank_className in Hsome. destruct Hsome as [item [Hin Hb]].
    now apply Hall in Hin.
Qed.

(** C3.  [handleSubmit] validates before it posts.  It ends with the
    message "Please select at least one image file" exactly when the
    collection is empty; otherwise with "Please provide a class name
    for each image" exactly when some class name trims to the empty
    string; otherwise it goes on to post one request.  In both failing
    cases nothing is posted and only [error] changes. *)
Theorem handleSubmit_validates_first (w : World) :
  (error (ui (handleSubmit w)) = Some "Please select at least one image file"
   <-> files (ui w) = [])
  /\ (files (ui w) <> [] ->
      (error (ui (handleSubmit w)) = Some "Please provide a class name for each image"
       <-> exists item, In item (files (ui w)) /\ Js.trim (className item) = EmptyString))
  /\ (files (ui w) <> [] ->
      (forall item, In item (files (ui w)) -> Js.trim (className item) <> EmptyString) ->
      isLoading (ui (handleSubmit w)) = true
      /\ error (ui (handleSubmit w)) = None
      /\ posted (handleSubmit w) = posted w ++ [mkRequest serviceUrl (buildFormData (ui w))])
  /\ (files (ui w) = []
      \/ (exists item, In item (files (ui w)) /\ Js.trim (className item) = EmptyString) ->
      posted (handleSubmit w) = posted w
      /\ pending (handleSubmit w) = pending w
      /\ handleSubmit w = withUi (setError (error (ui (handleSubmit w)))) w).
Proof.
  unfold handleSubmit.
  destruct (List.length (files (ui w)) =? 0)%nat eqn:Hlen.
  - apply length_zero_nil in Hlen.
    split; [split; [auto|reflexivity]|].
    split; [intros Hne; contradiction|].
    split; [intros Hne; contradiction|].
    intros _. repeat split.
  - assert (Hne : files (ui w) <> []).
    { intros Hnil. apply length_zero_nil in Hnil. congruence. }
    destruct (Js.some _ (files (ui w))) eqn:Hsome.
    + pose proof (proj1 (some_blank_className _) Hsome) as Hex.
      split; [split; [discriminate|contradiction]|].
      split; [intros _; split; [auto|reflexivity]|].
      split.
      * intros _ Hall. destruct Hex as [item [Hin Hb]]. now apply Hall in Hin.
      * intros _. repeat split.
    + assert (Hnone : ~ exists item, In item (files (ui w)) /\ Js.trim (className item) = EmptyString).
      { intros Hex. apply some_blank_className in Hex. congruence. }
      split; [split; [discriminate|contradiction]|].
      split; [intros _; split; [discriminate|contradiction]|].
      split; [intros _ _; repeat split|].
      intros [Hnil|Hex]; contradiction.
Qed.

Lemma forEach_appendEntry_files (c : list FileEntry) (formData : FormData.t) :
  FormData.getAll "files" (Js.forEach appendEntry c formData) =
    FormData.getAll "files" formData
      ++ List.map (fun item => FormData.FileValue (file item)) c.
Proof.
  unfold Js.forEach. revert formData.
  induction c as [|item c IH]; intros formData; cbn [fold_left List.map].
  - now rewrite app_nil_r.
  - rewrite IH. unfold appendEntry, FormData.append.
    rewrite !JsFacts.getAll_app. cbn. rewrite ?app_nil_r, <- ?app_assoc. reflexivity.
Qed.

Lemma forEach_appendEntry_class_names (c : list FileEntry) (formData : FormData.t) :
  FormData.getAll "class_names" (Js.forEach appendEntry c formData) =
    FormData.getAll "class_names" formData
      ++ List.map (fun item => FormData.StringValue (className item)) c.
Proof.
  unfold Js.forEach. revert formData.
  induction c as [|item c IH]; intros formData; cbn [fold_left List.map].
  - now rewrite app_nil_r.
  - rewrite IH. unfold appendEntry, FormData.append.
    rewrite !JsFacts.getAll_app. cbn. rewrite ?app_nil_r, <- ?app_assoc. reflexivity.
Qed.

Lemma forEach_appendEntry_other (name : string) (c : list FileEntry) (formData : FormData.t) :
  String.eqb "files" name = false -> String.eqb "class_names" name = false ->
  FormData.getAll name (Js.forEach appendEntry c formData) =
    FormData.getAll name formData.
Proof.
  intros Hf Hc. unfold Js.forEach. revert formData.
  induction c as [|item c IH]; intros formData; cbn [fold_left].
  - reflexivity.
  - rewrite IH. unfold appendEntry, FormData.append.
    rewrite !JsFacts.getAll_app. cbn [FormData.getAll].
    rewrite Hf, Hc. now rewrite !app_nil_r.
Qed.

Lemma forEach_appendEntry_length (c : list FileEntry) (formData : FormData.t) :
  List.length (Js.forEach appendEntry c formData) =
    (List.length formData + 2 * List.length c)%nat.
Proof.
  unfold Js.forEach. revert formData.
  induction c as [|item c IH]; intros formData; cbn [fold_left List.length].
  - lia.
  - rewrite IH. unfold appendEntry, FormData.append. rewrite !length_app. cbn. lia.
Qed.

(** C4.  For a collection that passes validation and a count that is a
    safe integer (any configured count from 1 to 100 is one), the one
    request posted carries as many [files] fields and as many
    [class_names] fields as there are entries, in collection order, the
    i-th of each from the i-th entry, one [num_images] field holding
    the decimal numeral of the count, and no other field. *)
Theorem submit_payload_pairs_files_with_class_names (w : World) (count : Z) :
  files (ui w) <> [] ->
  (forall item, In item (files (ui w)) -> Js.trim (className item) <> EmptyString) ->
  numImages (ui w) = Js.Int count ->
  Js.safeInteger count = true ->
  exists request,
    posted (handleSubmit w) = posted w ++ [request]
    /\ FormData.getAll "files" (body request) =
         List.map (fun item => FormData.FileValue (file item)) (files (ui w))
    /\ FormData.getAll "class_names" (body request) =
         List.map (fun item => FormData.StringValue (className item)) (files (ui w))
    /\ (forall i item,
           nth_error (files (ui w)) i = Some item ->
           nth_error (FormData.getAll "files" (body request)) i =
             Some (FormData.FileValue (file item))
           /\ nth_error (FormData.getAll "class_names" (body request)) i =
                Some (FormData.StringValue (className item)))
    /\ FormData.getAll "num_images" (body request) =
         [FormData.StringValue (NilZero.string_of_int (Z.to_int count))]
    /\ Js.Number (NilZero.string_of_int (Z.to_int count)) = Js.Int count
    /\ List.length (body request) = (2 * List.length (files (ui w)) + 1)%nat.
Proof.
  intros Hne Hall Hcount _.
  exists (mkRequest serviceUrl (buildFormData (ui w))).
  split; [now rewrite (handleSubmit_accepts w Hne Hall)|].
  cbn [body]. unfold buildFormData, FormData.append, FormData.empty.
  rewrite Hcount.
  assert (Hfiles : FormData.getAll "files"
                     (Js.forEach appendEntry (files (ui w)) []
                        ++ [("num_images", FormData.StringValue (Js.toString (Js.Int count)))]) =
                   List.map (fun item => FormData.FileValue (file item)) (files (ui w))).
  { rewrite JsFacts.getAll_app, forEach_appendEntry_files. cbn. now rewrite app_nil_r. }
  assert (Hnames : FormData.getAll "class_names"
                     (Js.forEach appendEntry (files (ui w)) []
                        ++ [("num_images", FormData.StringValue (Js.toString (Js.Int count)))]) =
                   List.map (fun item => FormData.StringValue (className item)) (files (ui w))).
  { rewrite JsFacts.getAll_app, forEach_appendEntry_class_names. cbn. now rewrite app_nil_r. }
  split; [exact Hfiles|]. split; [exact Hnames|].
  split; [|split; [|split]].
  - intros i item Hi. rewrite Hfiles, Hnames, !nth_error_map, Hi. split; reflexivity.
  - rewrite JsFacts.getAll_app, forEach_appendEntry_other by reflexivity. reflexivity.
  - exact (JsFacts.Number_toString count).
  - rewrite length_app, forEach_appendEntry_length. cbn. lia.
Qed.

Lemma scenarioA_labels (item : FileEntry) :
  In item (files (ui scenarioA)) -> Js.trim (className item) <> EmptyString.
Proof.
  intros Hin. vm_compute in Hin.
  destruct Hin as [<-|[<-|[<-|[]]]]; vm_compute; discriminate.
Qed.

Lemma submit_payload_pairs_files_with_class_names_witness :
  files (ui scenarioA) <> []
  /\ numImages (ui scenarioA) = Js.Int 5
  /\ Js.safeInteger 5 = true
  /\ exists request,
      posted (handleSubmit scenarioA) = [request]
      /\ List.length (FormData.getAll "files" (body request)) = 3%nat
      /\ FormData.getAll "class_names" (body request) =
           [FormData.StringValue "cat"; FormData.StringValue "dog";
            FormData.StringValue "bird"]
      /\ FormData.getAll "num_images" (body request) = [FormData.StringValue "5"].
Proof.
  assert (Hne : files (ui scenarioA) <> []) by (vm_compute; discriminate).
  assert (Hcount : numImages (ui scenarioA) = Js.Int 5) by (vm_compute; reflexivity).
  assert (Hsafe : Js.safeInteger 5 = true) by (vm_compute; reflexivity).
  split; [exact Hne|]. split; [exact Hcount|]. split; [exact Hsafe|].
  destruct (submit_payload_pairs_files_with_class_names
              scenarioA 5 Hne scenarioA_labels Hcount Hsafe)
    as (request & Hposted & Hfiles & Hnames & _ & Hnum & _).
  exists request. split; [exact Hposted|].
  split; [rewrite Hfiles; vm_compute; reflexivity|].
  split; [rewrite Hnames; vm_compute; reflexivity|].
  rewrite Hnum. vm_compute. reflexivity.
Defined.

End Submission.

(* ================================================================== *)
(** * Request lifecycle: admission, request state, archive handles *)
(* ================================================================== *)

Section Lifecycle.
Import App Ui Scenario.

Lemma inFlightWorld_reachable : reachable inFlightWorld.
Proof.
  apply (AppFacts.run_reachable submitOnce initialWorld).
  - exact reachable_init.
  - vm_compute. reflexivity.
Qed.

(** The admission rule lives in the markup: [handleSubmit] itself does
    not look at [isLoading], and run on a world with a request in
    flight it posts again. *)
Remark handleSubmit_does_not_test_isLoading :
  isLoading (ui inFlightWorld) = true
  /\ List.length (pending (handleSubmit inFlightWorld)) = 2%nat.
Proof. split; vm_compute; reflexivity. Qed.

(** C1.  In every reachable world at most one request is pending, and
    while [isLoading] holds a click on the submit button, which line
    193 disables, changes nothing: the world is the same and no second
    request is posted. *)
Theorem submit_while_in_flight_is_noop (w : World) :
  reachable w ->
  (List.length (pending w) <= 1)%nat
  /\ (isLoading (ui w) = true ->
      step SubmitClicked w = Some w /\ List.length (pending w) = 1%nat).
Proof.
  intros Hreach.
  pose proof (AppFacts.reachable_pendingMatchesLoading w Hreach) as Hinv.
  unfold pendingMatchesLoading in Hinv. split.
  - destruct (isLoading (ui w)); lia.
  - intros Hload. rewrite Hload in Hinv. split; [|exact Hinv].
    unfold step, submitDisabled. now rewrite Hload.
Qed.

Lemma submit_while_in_flight_is_noop_witness :
  reachable inFlightWorld
  /\ isLoading (ui inFlightWorld) = true
  /\ step SubmitClicked inFlightWorld = Some inFlightWorld
  /\ List.length (posted inFlightWorld) = 1%nat.
Proof.
  assert (Hload : isLoading (ui inFlightWorld) = true) by (vm_compute; reflexivity).
  split; [exact inFlightWorld_reachable|].
  split; [exact Hload|].
  split; [|vm_compute; reflexivity].
  exact (proj1 (proj2 (submit_while_in_flight_is_noop inFlightWorld
                         inFlightWorld_reachable) Hload)).
Defined.

(** C5, as the code has it.  After a download has arrived, a blank
    class name and a second submit end in the validation return of
    line 75, which sets [error] and leaves [downloadUrl]: the error
    banner and the download section are both shown, two request-state
    values at once. *)
Theorem validation_failure_keeps_download_url :
  exists w,
    run blankLabelAfterDownload initialWorld = Some w
    /\ isLoading (ui w) = false
    /\ error (ui w) = Some "Please provide a class name for each image"
    /\ downloadUrl (ui w) = Some (BlobURL 0)
    /\ Spec.liveRequestStates (ui w) =
         [Spec.Succeeded (BlobURL 0);
          Spec.Failed "Please provide a class name for each image"]
    /\ ~ oneRequestStateLive (ui w).
Proof.
  eexists. split; [vm_compute; reflexivity|].
  repeat split; try (vm_compute; reflexivity).
  intros [r Hr]. vm_compute in Hr. discriminate.
Qed.

(** C9, the claim as written fails: after two answered submissions two
    object URLs are live, the first of them no longer referenced. *)
Lemma two_archive_handles_live :
  exists w,
    run secondDownload initialWorld = Some w
    /\ List.map fst (objectURLs w) = [BlobURL 0; BlobURL 1]
    /\ downloadUrl (ui w) = Some (BlobURL 1)
    /\ ~ atMostOneLiveHandle w.
Proof.
  eexists. split; [vm_compute; reflexivity|].
  repeat split; try (vm_compute; reflexivity).
  unfold atMostOneLiveHandle. vm_compute. lia.
Qed.

Lemma run_objectURLs_length (events : list Event) (w0 w : World) :
  run events w0 = Some w ->
  List.length (objectURLs w) = (List.length (objectURLs w0) + fulfilled events)%nat.
Proof.
  revert w0. induction events as [|ev events IH]; intros w0; cbn [run].
  - intros [= <-]. cbn. lia.
  - destruct (step ev w0) as [w1|] eqn:Hstep; [|discriminate].
    intros Hrun. rewrite (IH _ Hrun), (AppFacts.step_objectURLs _ _ _ Hstep).
    rewrite length_app. destruct ev; cbn; lia.
Qed.

Lemma run_downloadUrlLive (events : list Event) (w0 w : World) :
  downloadUrlLive w0 -> run events w0 = Some w -> downloadUrlLive w.
Proof.
  revert w0. induction events as [|ev events IH]; intros w0 Hinv; cbn [run].
  - now intros [= <-].
  - destruct (step ev w0) as [w1|] eqn:Hstep; [|discriminate].
    apply IH. exact (AppFacts.step_downloadUrlLive _ _ _ Hinv Hstep).
Qed.

(** C9, amended.  The state refers to at most one archive handle, the
    object URL in [downloadUrl], and that URL is live.  No handle is
    ever released: a delivered response adds one object URL, no event
    removes one, and after any run the live object URLs are as many as
    the responses delivered. *)
Theorem object_urls_are_never_released (events : list Event) (w : World) :
  run events initialWorld = Some w ->
  List.length (objectURLs w) = fulfilled events
  /\ downloadUrlLive w
  /\ (forall ev w',
         step ev w = Some w' ->
         exists created, objectURLs w' = objectURLs w ++ created).
Proof.
  intros Hrun. split; [|split].
  - now rewrite (run_objectURLs_length _ _ _ Hrun).
  - apply (run_downloadUrlLive events initialWorld); [|exact Hrun].
    intros u. discriminate.
  - intros ev w' Hstep. eexists. exact (AppFacts.step_objectURLs _ _ _ Hstep).
Qed.

Lemma object_urls_are_never_released_witness :
  exists w,
    run secondDownload initialWorld = Some w
    /\ List.length (objectURLs w) = 2%nat
    /\ downloadUrlLive w.
Proof.
  destruct (run secondDownload initialWorld) as [w|] eqn:Hrun;
    [|vm_compute in Hrun; discriminate].
  exists w. split; [reflexivity|].
  pose proof (object_urls_are_never_released secondDownload w Hrun) as H.
  split; [|exact (proj1 (proj2 H))].
  rewrite (proj1 H). vm_compute. reflexivity.
Defined.

End Lifecycle.

(* ================================================================== *)
(** * More on the collection: what reordering and editing preserve *)
(* ================================================================== *)

Module CollectionFacts.
Import App.

Lemma insertAt_nth_error {A : Type} (l : list A) (i : nat) (x : A) :
  (i <= List.length l)%nat -> nth_error (Spec.insertAt i x l) i = Some x.
Proof.
  intros Hi. unfold Spec.insertAt.
  rewrite nth_error_app2 by (rewrite length_firstn; lia).
  rewrite length_firstn. now replace (i - Nat.min i (List.length l))%nat with 0%nat by lia.
Qed.

Lemma insertAt_length {A : Type} (l : list A) (i : nat) (x : A) :
  List.length (Spec.insertAt i x l) = S (List.length l).
Proof.
  unfold Spec.insertAt. rewrite length_app. cbn [List.length].
  rewrite length_firstn, length_skipn. lia.
Qed.

Lemma removeAt_insertAt {A : Type} (l : list A) (i : nat) (x : A) :
  (i <= List.length l)%nat -> Spec.removeAt i (Spec.insertAt i x l) = l.
Proof.
  intros Hi. unfold Spec.removeAt, Spec.insertAt.
  assert (Hlen : List.length (firstn i l) = i) by (rewrite length_firstn; lia).
  rewrite firstn_app, skipn_app, Hlen.
  replace (i - i)%nat with 0%nat by lia.
  replace (S i - i)%nat with 1%nat by lia.
  rewrite firstn_firstn, Nat.min_id.
  rewrite (skipn_all2 (firstn i l)) by lia.
  rewrite firstn_O, app_nil_r.
  change (skipn 1 (x :: skipn i l)) with (skipn i l). cbn [app].
  apply firstn_skipn.
Qed.

Lemma insertAt_removeAt {A : Type} (l : list A) (i : nat) (x : A) :
  nth_error l i = Some x -> Spec.insertAt i x (Spec.removeAt i l) = l.
Proof.
  intros Hx.
  assert (Hlt : (i < List.length l)%nat) by (apply nth_error_Some; congruence).
  assert (Hlen : List.length (firstn i l) = i) by (rewrite length_firstn; lia).
  unfold Spec.insertAt, Spec.removeAt.
  rewrite firstn_app, skipn_app, Hlen.
  replace (i - i)%nat with 0%nat by lia.
  rewrite firstn_firstn, Nat.min_id.
  rewrite (skipn_all2 (firstn i l)) by lia.
  rewrite firstn_O, skipn_O, app_nil_r.
  change ([] ++ skipn (S i) l) with (skipn (S i) l).
  rewrite <- (JsFacts.skipn_nth_error _ _ _ Hx).
  apply firstn_skipn.
Qed.

(** One [splice(start, 1)] that removed something took out exactly one
    element and kept the others. *)
Lemma splice_delete_one_perm {A : Type} (arr : list A) (start : Js.number)
      (x : A) (others rest : list A) :
  Js.splice arr start 1 [] = (x :: others, rest) ->
  others = [] /\ Permutation arr (x :: rest).
Proof.
  unfold Js.splice.
  set (a := Js.relativeIndex (List.length arr) (Js.toIntegerOrInfinity start)).
  set (dc := Z.to_nat (Z.min (Z.max 1 0) (Z.of_nat (List.length arr - a)))).
  assert (Hdc : dc = 0%nat \/ dc = 1%nat) by (subst dc; lia).
  intros Heq. injection Heq as Hremoved Hrest.
  destruct Hdc as [Hdc|Hdc]; rewrite Hdc in *; [discriminate|].
  destruct (skipn a arr) as [|y tail] eqn:Hskip; [discriminate|].
  cbn [firstn] in Hremoved. injection Hremoved as -> <-.
  split; [reflexivity|].
  assert (Htail : skipn (a + 1) arr = tail).
  { rewrite Nat.add_comm, <- skipn_skipn, Hskip. reflexivity. }
  rewrite <- Hrest, Htail. cbn [app].
  rewrite <- (firstn_skipn a arr) at 1. rewrite Hskip.
  symmetry. apply Permutation_middle.
Qed.

(** [splice(start, 0, x)] adds [x] and keeps the others. *)
Lemma splice_insert_one_perm {A : Type} (arr : list A) (start : Js.number) (x : A) :
  Permutation (x :: arr) (snd (Js.splice arr start 0 [x])).
Proof.
  unfold Js.splice. cbn [snd].
  set (a := Js.relativeIndex (List.length arr) (Js.toIntegerOrInfinity start)).
  replace (Z.to_nat (Z.min (Z.max 0 0) (Z.of_nat (List.length arr - a)))) with 0%nat by lia.
  rewrite Nat.add_0_r. cbn [app].
  rewrite <- (firstn_skipn a arr) at 1.
  apply Permutation_middle.
Qed.

Lemma dropUpdater_perm (sourceIndex : Js.number) (targetIndex : Z)
      (prev newFiles : list FileEntry) :
  dropUpdater sourceIndex targetIndex prev = Some newFiles ->
  Permutation prev newFiles.
Proof.
  unfold dropUpdater.
  destruct (Js.splice prev sourceIndex 1 []) as [removedItems rest] eqn:Hsplice.
  destruct removedItems as [|removed others]; [discriminate|].
  intros [= <-].
  destruct (splice_delete_one_perm _ _ _ _ _ Hsplice) as [_ Hperm].
  exact (Permutation_trans Hperm
           (splice_insert_one_perm rest (Js.Int targetIndex) removed)).
Qed.

Lemma mapFrom_keeps {A B : Type} (f : A -> Z -> A) (proj : A -> B) (k : Z) (l : list A) :
  (forall item i, proj (f item i) = proj item) ->
  List.map proj (Js.mapFrom f k l) = List.map proj l.
Proof.
  intros Hkeep. revert k.
  induction l as [|y l IH]; intros k; cbn [Js.mapFrom List.map].
  - reflexivity.
  - now rewrite Hkeep, IH.
Qed.

Lemma filterFrom_incl {A : Type} (keep : A -> Z -> bool) (k : Z) (l : list A) :
  incl (Js.filterFrom keep k l) l.
Proof.
  revert k. induction l as [|y l IH]; intros k; cbn [Js.filterFrom].
  - apply incl_refl.
  - destruct (keep y k).
    + apply incl_cons; [now left|]. apply incl_tl, IH.
    + apply incl_tl, IH.
Qed.

Lemma removeUpdater_removeAt (index : Z) (c : list FileEntry) :
  0 <= index < Z.of_nat (List.length c) ->
  removeUpdater index c = Spec.removeAt (Z.to_nat index) c.
Proof.
  intros Hi. unfold removeUpdater, Js.filter, Spec.removeAt.
  rewrite JsFacts.filterFrom_hit by lia. now rewrite Z.sub_0_r.
Qed.

Lemma classNameUpdater_nth_error (index : Z) (value : string) (c : list FileEntry) (n : nat) :
  nth_error (classNameUpdater index value c) n =
    if Z.of_nat n =? index
    then option_map (fun item => mkEntry (file item) value) (nth_error c n)
    else nth_error c n.
Proof.
  unfold classNameUpdater, Js.map.
  rewrite (JsFacts.mapFrom_nth_error (fun item => mkEntry (file item) value)).
  now rewrite Z.add_0_l.
Qed.

End CollectionFacts.

Section MoreCollection.
Import App Ui Scenario.

(** X1.  Whatever the drag data and the target, a drop that returns a
    state only rearranges: the collection afterwards has the same
    entries, each as often as before, and the same length. *)
Theorem handleDrop_only_rearranges (w w' : World) (targetIndex : Z) :
  handleDrop targetIndex w = Some w' ->
  Permutation (files (ui w)) (files (ui w'))
  /\ List.length (files (ui w')) = List.length (files (ui w)).
Proof.
  intros Hdrop.
  assert (Hperm : Permutation (files (ui w)) (files (ui w'))).
  { unfold handleDrop in Hdrop.
    destruct (Js.strictEq _ _).
    - injection Hdrop as <-. apply Permutation_refl.
    - destruct (dropUpdater _ _ _) as [newFiles|] eqn:Hupd; [|discriminate].
      injection Hdrop as <-. cbn.
      exact (CollectionFacts.dropUpdater_perm _ _ _ _ Hupd). }
  split; [exact Hperm|]. symmetry. now apply Permutation_length.
Qed.

Lemma handleDrop_only_rearranges_witness :
  exists w',
    handleDrop 0 (handleDragStart 3 sampleWorld) = Some w'
    /\ Permutation (files (ui (handleDragStart 3 sampleWorld))) (files (ui w'))
    /\ List.length (files (ui w')) = 4%nat.
Proof.
  destruct (handleDrop 0 (handleDragStart 3 sampleWorld)) as [w'|] eqn:Hrun;
    [|vm_compute in Hrun; discriminate].
  exists w'. split; [reflexivity|].
  destruct (handleDrop_only_rearranges _ _ _ Hrun) as [Hperm Hlen].
  split; [exact Hperm|]. rewrite Hlen. vm_compute. reflexivity.
Defined.

(** X2.  After a drag from [sourceIndex] dropped on a different item at
    [targetIndex], the dragged entry is the one at [targetIndex], and
    taking it out again leaves the other entries in the order they had
    before the drag. *)
Theorem dragged_entry_lands_on_target (w : World) (sourceIndex targetIndex : Z) :
  0 <= sourceIndex < Z.of_nat (List.length (files (ui w))) ->
  0 <= targetIndex < Z.of_nat (List.length (files (ui w))) ->
  sourceIndex <> targetIndex ->
  exists w',
    handleDrop targetIndex (handleDragStart sourceIndex w) = Some w'
    /\ nth_error (files (ui w')) (Z.to_nat targetIndex) =
         nth_error (files (ui w)) (Z.to_nat sourceIndex)
    /\ Spec.removeAt (Z.to_nat targetIndex) (files (ui w')) =
         Spec.removeAt (Z.to_nat sourceIndex) (files (ui w)).
Proof.
  intros Hs Ht Hne.
  unfold handleDrop. rewrite AppFacts.sourceIndex_after_dragStart. cbn [Js.strictEq].
  destruct (Z.eqb_spec sourceIndex targetIndex) as [|_]; [contradiction|].
  change (files (ui (handleDragStart sourceIndex w))) with (files (ui w)).
  rewrite AppFacts.dropUpdater_move by assumption.
  eexists. split; [reflexivity|].
  cbn [withUi ui setFiles setActiveDragIndex files].
  destruct (AppFacts.nth_error_inRange _ _ Hs) as [x Hx].
  unfold Spec.move. rewrite Hx.
  assert (Hlen : (Z.to_nat targetIndex
                  <= List.length (Spec.removeAt (Z.to_nat sourceIndex) (files (ui w))))%nat).
  { rewrite AppFacts.removeAt_length by lia. lia. }
  split.
  - now apply CollectionFacts.insertAt_nth_error.
  - now apply CollectionFacts.removeAt_insertAt.
Qed.

Lemma dragged_entry_lands_on_target_witness :
  exists w',
    handleDrop 2 (handleDragStart 0 sampleWorld) = Some w'
    /\ option_map className (nth_error (files (ui w')) 2) = Some "a".
Proof.
  assert (H0 : 0 <= 0 < Z.of_nat (List.length (files (ui sampleWorld))))
    by (vm_compute; split; [discriminate|reflexivity]).
  assert (H2 : 0 <= 2 < Z.of_nat (List.length (files (ui sampleWorld))))
    by (vm_compute; split; [discriminate|reflexivity]).
  destruct (dragged_entry_lands_on_target sampleWorld 0 2 H0 H2) as (w' & Hrun & Hnth & _).
  - discriminate.
  - exists w'. split; [exact Hrun|].
    change (Z.to_nat 2) with 2%nat in Hnth. rewrite Hnth. vm_compute. reflexivity.
Defined.

(** X3.  Dragging an entry from one item to another and then dragging
    it back from there to where it came from restores the collection. *)
Theorem drag_there_and_back (w : World) (sourceIndex targetIndex : Z) :
  0 <= sourceIndex < Z.of_nat (List.length (files (ui w))) ->
  0 <= targetIndex < Z.of_nat (List.length (files (ui w))) ->
  sourceIndex <> targetIndex ->
  exists w1 w2,
    handleDrop targetIndex (handleDragStart sourceIndex w) = Some w1
    /\ handleDrop sourceIndex (handleDragStart targetIndex w1) = Some w2
    /\ files (ui w2) = files (ui w).
Proof.
  intros Hs Ht Hne.
  destruct (AppFacts.nth_error_inRange _ _ Hs) as [x Hx].
  assert (Hrm : (Z.to_nat targetIndex
                 <= List.length (Spec.removeAt (Z.to_nat sourceIndex) (files (ui w))))%nat).
  { rewrite AppFacts.removeAt_length by lia. lia. }
  set (there := Spec.insertAt (Z.to_nat targetIndex) x
                  (Spec.removeAt (Z.to_nat sourceIndex) (files (ui w)))).
  assert (Hlen : List.length there = List.length (files (ui w))).
  { subst there. rewrite CollectionFacts.insertAt_length, AppFacts.removeAt_length by lia. lia. }
  assert (Hfirst : handleDrop targetIndex (handleDragStart sourceIndex w) =
                   Some (withUi (setActiveDragIndex None)
                           (withUi (setFiles (fun _ => there))
                              (handleDragStart sourceIndex w)))).
  { unfold handleDrop. rewrite AppFacts.sourceIndex_after_dragStart. cbn [Js.strictEq].
    destruct (Z.eqb_spec sourceIndex targetIndex) as [|_]; [contradiction|].
    change (files (ui (handleDragStart sourceIndex w))) with (files (ui w)).
    rewrite AppFacts.dropUpdater_move by assumption.
    unfold Spec.move. now rewrite Hx. }
  eexists. eexists. split; [exact Hfirst|].
  unfold handleDrop at 1. rewrite AppFacts.sourceIndex_after_dragStart. cbn [Js.strictEq].
  destruct (Z.eqb_spec targetIndex sourceIndex) as [Heq|_]; [now symmetry in Heq|].
  match goal with
  | |- context [files (ui (handleDragStart targetIndex ?v))] =>
      change (files (ui (handleDragStart targetIndex v))) with there
  end.
  rewrite AppFacts.dropUpdater_move by (rewrite Hlen; assumption).
  split; [reflexivity|].
  cbn [withUi ui setFiles setActiveDragIndex files].
  unfold Spec.move. subst there.
  rewrite CollectionFacts.insertAt_nth_error by assumption.
  rewrite CollectionFacts.removeAt_insertAt by assumption.
  now apply CollectionFacts.insertAt_removeAt.
Qed.

Lemma drag_there_and_back_witness :
  exists w1 w2,
    handleDrop 3 (handleDragStart 1 sampleWorld) = Some w1
    /\ handleDrop 1 (handleDragStart 3 w1) = Some w2
    /\ List.map className (files (ui w2)) = ["a"; "b"; "c"; "d"].
Proof.
  assert (H1 : 0 <= 1 < Z.of_nat (List.length (files (ui sampleWorld))))
    by (vm_compute; split; [discriminate|reflexivity]).
  assert (H3 : 0 <= 3 < Z.of_nat (List.length (files (ui sampleWorld))))
    by (vm_compute; split; [discriminate|reflexivity]).
  destruct (drag_there_and_back sampleWorld 1 3 H1 H3) as (w1 & w2 & Hgo & Hback & Hfiles).
  - discriminate.
  - exists w1, w2. split; [exact Hgo|]. split; [exact Hback|].
    rewrite Hfiles. vm_compute. reflexivity.
Defined.

End MoreCollection.

Section MoreEdits.
Import App Ui Scenario.

(** X4.  A drop whose data store holds no [index] entry reads the
    source index as [Number("")], that is 0: on the first item it does
    nothing, on a later item it moves the first entry of the collection
    there and clears the highlight. *)
Theorem drop_without_drag_data_moves_first_entry (w : World) :
  getData "index" (dataTransfer w) = EmptyString ->
  handleDrop 0 w = Some w
  /\ (forall (targetIndex : Z) (first : FileEntry) (rest : list FileEntry),
         files (ui w) = first :: rest ->
         0 < targetIndex <= Z.of_nat (List.length rest) ->
         exists w',
           handleDrop targetIndex w = Some w'
           /\ files (ui w') =
                firstn (Z.to_nat targetIndex) rest
                  ++ first :: skipn (Z.to_nat targetIndex) rest
           /\ activeDragIndex (ui w') = None).
Proof.
  intros Hdata. split.
  - unfold handleDrop. rewrite Hdata. reflexivity.
  - intros targetIndex first rest Hfiles Ht.
    unfold handleDrop. rewrite Hdata.
    change (Js.Number EmptyString) with (Js.Int 0). cbn [Js.strictEq].
    destruct (Z.eqb_spec 0 targetIndex) as [|_]; [lia|].
    rewrite AppFacts.dropUpdater_move
      by (rewrite Hfiles; cbn [List.length]; lia).
    eexists. split; [reflexivity|]. split; [|reflexivity].
    cbn [withUi ui setFiles setActiveDragIndex files].
    rewrite Hfiles. reflexivity.
Qed.

Lemma drop_without_drag_data_moves_first_entry_witness :
  getData "index" (dataTransfer sampleWorld) = EmptyString
  /\ handleDrop 0 sampleWorld = Some sampleWorld
  /\ exists w',
      handleDrop 2 sampleWorld = Some w'
      /\ List.map className (files (ui w')) = ["b"; "c"; "a"; "d"].
Proof.
  assert (Hdata : getData "index" (dataTransfer sampleWorld) = EmptyString)
    by (vm_compute; reflexivity).
  destruct (drop_without_drag_data_moves_first_entry sampleWorld Hdata) as [Hsame Hmove].
  split; [exact Hdata|]. split; [exact Hsame|].
  destruct (Hmove 2 (mkEntry (sampleFile "a.jpg") "a")
                  [mkEntry (sampleFile "b.jpg") "b"; mkEntry (sampleFile "c.jpg") "c";
                   mkEntry (sampleFile "d.jpg") "d"])
    as (w' & Hrun & Hfiles & _).
  - vm_compute. reflexivity.
  - vm_compute. split; [reflexivity|discriminate].
  - exists w'. split; [exact Hrun|]. rewrite Hfiles. vm_compute. reflexivity.
Defined.

(** X5.  Editing class names never touches the files: whatever the
    index, the collection keeps its length and the same file at every
    position.  A second edit of the same index overrides the first, and
    edits of different indices can be made in either order. *)
Theorem className_edits_keep_files_and_compose
        (c : list FileEntry) (i j : Z) (u v : string) :
  List.map file (classNameUpdater i v c) = List.map file c
  /\ List.length (classNameUpdater i v c) = List.length c
  /\ classNameUpdater i v (classNameUpdater i u c) = classNameUpdater i v c
  /\ (i <> j ->
      classNameUpdater i u (classNameUpdater j v c) =
        classNameUpdater j v (classNameUpdater i u c)).
Proof.
  split; [|split; [|split]].
  - unfold classNameUpdater, Js.map. apply CollectionFacts.mapFrom_keeps.
    intros item n. now destruct (n =? i).
  - unfold classNameUpdater, Js.map. apply JsFacts.mapFrom_length.
  - apply AppFacts.nth_error_ext. intros n.
    rewrite !CollectionFacts.classNameUpdater_nth_error.
    destruct (Z.of_nat n =? i); [|reflexivity].
    now destruct (nth_error c n).
  - intros Hne. apply AppFacts.nth_error_ext. intros n.
    rewrite !CollectionFacts.classNameUpdater_nth_error.
    destruct (Z.eqb_spec (Z.of_nat n) i), (Z.eqb_spec (Z.of_nat n) j);
      try reflexivity.
    congruence.
Qed.

(** X6.  Removing the entry that a drop of one file has just appended
    gives back the collection as it was before the drop. *)
Theorem removeFile_undoes_single_drop (w : World) (f : File) :
  files (ui (removeFile (Z.of_nat (List.length (files (ui w)))) (onDrop [f] w))) =
    files (ui w).
Proof.
  cbn [removeFile onDrop withUi ui setFiles setError setDownloadUrl files List.map].
  rewrite CollectionFacts.removeUpdater_removeAt by (rewrite length_app; cbn; lia).
  rewrite Nat2Z.id. unfold Spec.removeAt.
  rewrite firstn_app, firstn_all, Nat.sub_diag, firstn_O, app_nil_r.
  rewrite skipn_all2 by (rewrite length_app; cbn; lia).
  apply app_nil_r.
Qed.

(** X7.  Two removals can be made in either order, once the later index
    is shifted: removing item [i] and then item [j < i] leaves the same
    collection as removing [j] first and then item [i - 1]. *)
Theorem removals_commute_up_to_shift (c : list FileEntry) (i j : Z) :
  0 <= j < i ->
  i < Z.of_nat (List.length c) ->
  removeUpdater j (removeUpdater i c) = removeUpdater (i - 1) (removeUpdater j c).
Proof.
  intros Hj Hi.
  rewrite (CollectionFacts.removeUpdater_removeAt i c) by lia.
  rewrite (CollectionFacts.removeUpdater_removeAt j c) by lia.
  rewrite !CollectionFacts.removeUpdater_removeAt
    by (rewrite AppFacts.removeAt_length by lia; lia).
  apply AppFacts.nth_error_ext. intros n.
  rewrite !AppFacts.nth_error_removeAt.
  destruct (Nat.ltb_spec n (Z.to_nat j)), (Nat.ltb_spec n (Z.to_nat (i - 1))),
    (Nat.ltb_spec n (Z.to_nat i)), (Nat.ltb_spec (S n) (Z.to_nat i)),
    (Nat.ltb_spec (S n) (Z.to_nat j)); try reflexivity; lia.
Qed.

Lemma removals_commute_up_to_shift_witness :
  List.map className (removeUpdater 1 (removeUpdater 3 sampleEntries)) = ["a"; "c"]
  /\ removeUpdater 1 (removeUpdater 3 sampleEntries) =
       removeUpdater 2 (removeUpdater 1 sampleEntries).
Proof.
  split; [vm_compute; reflexivity|].
  apply (removals_commute_up_to_shift sampleEntries 3 1).
  - split; [discriminate|reflexivity].
  - vm_compute. reflexivity.
Defined.

(** X8.  Drops accumulate: dropping two batches one after the other is
    the same as dropping them as one batch.  A drop that accepted no
    file leaves the collection alone and still clears the error and the
    download link. *)
Theorem onDrop_batches_compose (w : World) (first second : list File) :
  onDrop second (onDrop first w) = onDrop (first ++ second) w
  /\ files (ui (onDrop [] w)) = files (ui w)
  /\ error (ui (onDrop [] w)) = None
  /\ downloadUrl (ui (onDrop [] w)) = None.
Proof.
  split; [|split; [|split; reflexivity]].
  - unfold onDrop, withUi, setFiles, setError, setDownloadUrl. cbn.
    now rewrite map_app, app_assoc.
  - cbn. apply app_nil_r.
Qed.

End MoreEdits.

(* ================================================================== *)
(** * More on submission: what is sent, what is shown *)
(* ================================================================== *)

Module SubmissionFacts.
Import App Ui.

Lemma forEach_appendEntry_flat_map (c : list FileEntry) (formData : FormData.t) :
  Js.forEach appendEntry c formData = formData ++ flat_map Checks.entryFields c.
Proof.
  unfold Js.forEach. revert formData.
  induction c as [|item c IH]; intros formData; cbn [fold_left flat_map].
  - now rewrite app_nil_r.
  - rewrite IH. unfold appendEntry, FormData.append, Checks.entryFields.
    rewrite <- !app_assoc. reflexivity.
Qed.

Lemma buildFormData_files (s : State) :
  FormData.getAll "files" (buildFormData s) =
    List.map (fun item => FormData.FileValue (file item)) (files s).
Proof.
  unfold buildFormData, FormData.append, FormData.empty.
  rewrite JsFacts.getAll_app, forEach_appendEntry_files. cbn. now rewrite app_nil_r.
Qed.

Lemma buildFormData_class_names (s : State) :
  FormData.getAll "class_names" (buildFormData s) =
    List.map (fun item => FormData.StringValue (className item)) (files s).
Proof.
  unfold buildFormData, FormData.append, FormData.empty.
  rewrite JsFacts.getAll_app, forEach_appendEntry_class_names. cbn. now rewrite app_nil_r.
Qed.

Lemma buildFormData_num_images (s : State) :
  FormData.getAll "num_images" (buildFormData s) =
    [FormData.StringValue (Js.toString (numImages s))].
Proof.
  unfold buildFormData, FormData.append, FormData.empty.
  rewrite JsFacts.getAll_app, forEach_appendEntry_other by reflexivity. reflexivity.
Qed.

(** A class name that does not trim to nothing is not empty, so it
    satisfies [required]. *)
Lemma nonblank_required (s : State) :
  (forall item, In item (files s) -> Js.trim (className item) <> EmptyString) ->
  requiredSatisfied s = true.
Proof.
  intros Hall. unfold requiredSatisfied. apply forallb_forall.
  intros item Hin. specialize (Hall item Hin).
  destruct (className item); [now contradiction Hall|reflexivity].
Qed.

(** A request built from a collection that passed validation. *)
Lemma buildFormData_wellFormed (s : State) :
  files s <> [] ->
  (forall item, In item (files s) -> Js.trim (className item) <> EmptyString) ->
  Checks.wellFormed (mkRequest serviceUrl (buildFormData s)).
Proof.
  intros Hne Hall. unfold Checks.wellFormed. cbn [body].
  rewrite buildFormData_files, buildFormData_class_names, buildFormData_num_images.
  split; [|split; [|split]].
  - destruct (files s); [contradiction|discriminate].
  - now rewrite !length_map.
  - intros label Hin. apply in_map_iff in Hin.
    destruct Hin as [item [[= <-] Hin]]. now apply Hall.
  - reflexivity.
Qed.

(** What a turn of the event loop does to the log of requests. *)
Lemma step_posted (ev : Event) (w w' : World) :
  step ev w = Some w' ->
  posted w' = posted w
  \/ (posted w' = posted w ++ [mkRequest serviceUrl (buildFormData (ui w))]
      /\ files (ui w) <> []
      /\ forall item, In item (files (ui w)) -> Js.trim (className item) <> EmptyString).
Proof.
  intros Hstep.
  destruct ev; try (AppFacts.step_cases Hstep; left; reflexivity).
  - unfold step in Hstep. destruct (rendered _ _); [|discriminate].
    apply AppFacts.handleDrop_frame in Hstep.
    destruct Hstep as (_ & _ & _ & _ & -> & _). now left.
  - AppFacts.step_cases Hstep; [now left|].
    unfold handleSubmit.
    destruct (List.length (files (ui w)) =? 0)%nat eqn:Hlen; [now left|].
    destruct (Js.some _ (files (ui w))) eqn:Hsome; [now left|].
    right. split; [reflexivity|]. split.
    + intros Hnil. rewrite Hnil in Hlen. discriminate.
    + intros item Hin Hblank.
      assert (Hex : Js.some (fun item => Js.not (Js.trim (className item))) (files (ui w)) = true)
        by (apply some_blank_className; eauto).
      congruence.
Qed.

(** A click on submit reaches [handleSubmit] when the button is enabled
    and the form is valid. *)
Lemma submit_click_reaches_handler (w : World) :
  isLoading (ui w) = false ->
  files (ui w) <> [] ->
  requiredSatisfied (ui w) = true ->
  countValid (ui w) = true ->
  step SubmitClicked w = Some (handleSubmit w).
Proof.
  intros Hload Hne Hreq Hcount. unfold step, submitDisabled.
  rewrite Hload, Hreq, Hcount.
  destruct (files (ui w)); [contradiction|reflexivity].
Qed.

(** ... and is withheld while the count is out of range. *)
Lemma submit_click_withheld_by_count (w : World) :
  countValid (ui w) = false -> step SubmitClicked w = Some w.
Proof.
  intros Hcount. unfold step. rewrite Hcount, andb_false_r. cbn [negb].
  now rewrite orb_true_r.
Qed.

Lemma step_quietWhileLoading (ev : Event) (w w' : World) :
  Checks.quietWhileLoading (ui w) -> step ev w = Some w' ->
  Checks.quietWhileLoading (ui w').
Proof.
  unfold Checks.quietWhileLoading. intros Hinv Hstep.
  destruct ev; try (AppFacts.step_cases Hstep; cbn; solve [auto | discriminate]).
  - unfold step in Hstep. destruct (rendered _ _); [|discriminate].
    apply AppFacts.handleDrop_frame in Hstep.
    destruct Hstep as (-> & -> & -> & _). exact Hinv.
  - AppFacts.step_cases Hstep; [exact Hinv|].
    match goal with
    | Hg : submitDisabled _ || _ = false |- _ =>
        apply orb_false_elim in Hg; destruct Hg as [Hdis _];
        unfold submitDisabled in Hdis; apply orb_false_elim in Hdis;
        destruct Hdis as [Hload _]
    end.
    unfold handleSubmit.
    destruct (_ =? _)%nat; [cbn; rewrite Hload; discriminate|].
    destruct (Js.some _ _); cbn; [rewrite Hload; discriminate|auto].
Qed.

Lemma reachable_quietWhileLoading (w : World) :
  reachable w -> Checks.quietWhileLoading (ui w).
Proof.
  induction 1 as [|w ev w' _ IH Hstep].
  - intros Hload. discriminate.
  - exact (step_quietWhileLoading _ _ _ IH Hstep).
Qed.

End SubmissionFacts.

Section MoreSubmission.
Import App Ui Scenario.

(** X9.  On the wire the fields of a valid submission come entry by
    entry, each [files] field directly followed by the [class_names]
    field of the same entry, and [num_images] comes last. *)
Theorem form_data_is_interleaved (w : World) :
  files (ui w) <> [] ->
  (forall item, In item (files (ui w)) -> Js.trim (className item) <> EmptyString) ->
  posted (handleSubmit w) =
    posted w ++
      [mkRequest serviceUrl
         (flat_map Checks.entryFields (files (ui w))
            ++ [("num_images",
                 FormData.StringValue (Js.toString (numImages (ui w))))])].
Proof.
  intros Hne Hall. rewrite (handleSubmit_accepts w Hne Hall).
  cbn [post posted withUi]. do 2 f_equal.
  unfold buildFormData, FormData.append, FormData.empty.
  now rewrite SubmissionFacts.forEach_appendEntry_flat_map.
Qed.

Lemma form_data_is_interleaved_witness :
  List.map (fun r => List.map fst (body r)) (posted (handleSubmit scenarioA)) =
    [["files"; "class_names"; "files"; "class_names"; "files"; "class_names";
      "num_images"]].
Proof.
  rewrite (form_data_is_interleaved scenarioA).
  - vm_compute. reflexivity.
  - vm_compute. discriminate.
  - exact scenarioA_labels.
Defined.

(** X10.  The count is checked by the form and by nothing else.  With
    no request in flight and a valid collection, a typed count is
    stored whatever it is.  If it is [NaN] (the field left empty) or an
    integer from 1 to 100, the next click on submit posts its
    [toString] as [num_images]; if it is an integer outside 1..100 the
    click changes nothing.  [handleSubmit] itself does not look at the
    count: called on that state it posts it in either case. *)
Theorem count_is_checked_by_the_form_only (w : World) (parsed : Js.number) :
  isLoading (ui w) = false ->
  files (ui w) <> [] ->
  (forall item, In item (files (ui w)) -> Js.trim (className item) <> EmptyString) ->
  exists w1,
    step (NumImagesTyped parsed) w = Some w1
    /\ numImages (ui w1) = parsed
    /\ (countValid (ui w1) = true ->
        exists w2 request,
          step SubmitClicked w1 = Some w2
          /\ posted w2 = posted w ++ [request]
          /\ FormData.getAll "num_images" (body request) =
               [FormData.StringValue (Js.toString parsed)])
    /\ (countValid (ui w1) = false -> step SubmitClicked w1 = Some w1)
    /\ (exists request,
           posted (handleSubmit w1) = posted w ++ [request]
           /\ FormData.getAll "num_images" (body request) =
                [FormData.StringValue (Js.toString parsed)]).
Proof.
  intros Hload Hne Hall.
  exists (withUi (setNumImages parsed) w).
  assert (Hposts : exists request,
             posted (handleSubmit (withUi (setNumImages parsed) w)) = posted w ++ [request]
             /\ FormData.getAll "num_images" (body request) =
                  [FormData.StringValue (Js.toString parsed)]).
  { exists (mkRequest serviceUrl (buildFormData (ui (withUi (setNumImages parsed) w)))).
    split.
    - now rewrite (handleSubmit_accepts (withUi (setNumImages parsed) w) Hne Hall).
    - cbn [body]. now rewrite SubmissionFacts.buildFormData_num_images. }
  split; [|split; [reflexivity|split; [|split; [|exact Hposts]]]].
  - unfold step, inputDisabled. now rewrite Hload.
  - intros Hcount. destruct Hposts as [request [Hposted Hnum]].
    exists (handleSubmit (withUi (setNumImages parsed) w)), request.
    split; [|split; assumption].
    apply SubmissionFacts.submit_click_reaches_handler; try assumption.
    exact (SubmissionFacts.nonblank_required (ui (withUi (setNumImages parsed) w)) Hall).
  - apply SubmissionFacts.submit_click_withheld_by_count.
Qed.

Lemma count_is_checked_by_the_form_only_witness :
  (exists w1 w2 request,
      step (NumImagesTyped Js.NaN) scenarioA = Some w1
      /\ step SubmitClicked w1 = Some w2
      /\ posted w2 = [request]
      /\ FormData.getAll "num_images" (body request) = [FormData.StringValue "NaN"])
  /\ (exists w1,
         step (NumImagesTyped (Js.Int 0)) scenarioA = Some w1
         /\ step SubmitClicked w1 = Some w1
         /\ posted w1 = []).
Proof.
  assert (Hload : isLoading (ui scenarioA) = false) by (vm_compute; reflexivity).
  assert (Hne : files (ui scenarioA) <> []) by (vm_compute; discriminate).
  split.
  - destruct (count_is_checked_by_the_form_only scenarioA Js.NaN Hload Hne scenarioA_labels)
      as (w1 & Htyped & Hnum & Hvalid & _).
    destruct Hvalid as (w2 & request & Hclick & Hposted & Hfield).
    + unfold countValid. rewrite Hnum. reflexivity.
    + exists w1, w2, request. repeat split; assumption.
  - destruct (count_is_checked_by_the_form_only scenarioA (Js.Int 0) Hload Hne scenarioA_labels)
      as (w1 & Htyped & Hnum & _ & Hinvalid & _).
    exists w1. split; [exact Htyped|]. split.
    + apply Hinvalid. unfold countValid. rewrite Hnum. reflexivity.
    + vm_compute in Htyped. injection Htyped as <-. vm_compute. reflexivity.
Defined.

(** X11.  Every request the component has ever posted is well formed:
    it carries at least one [files] field, as many [class_names] as
    [files], no class name that trims to the empty string, and exactly
    one [num_images]. *)
Theorem posted_requests_are_well_formed (w : World) (r : Request) :
  reachable w -> In r (posted w) -> Checks.wellFormed r.
Proof.
  intros Hreach. revert r.
  induction Hreach as [|w ev w' _ IH Hstep]; intros r Hin.
  - destruct Hin.
  - destruct (SubmissionFacts.step_posted _ _ _ Hstep) as [Hsame|(Hnew & Hne & Hall)].
    + rewrite Hsame in Hin. now apply IH.
    + rewrite Hnew in Hin. apply in_app_or in Hin.
      destruct Hin as [Hin|[<-|[]]]; [now apply IH|].
      now apply SubmissionFacts.buildFormData_wellFormed.
Qed.

Lemma posted_requests_are_well_formed_witness :
  exists r, In r (posted inFlightWorld) /\ Checks.wellFormed r.
Proof.
  exists (mkRequest serviceUrl (buildFormData (ui (handleClassNameChange 0 "cat"
            (onDrop [sampleFile "cat.jpg"] initialWorld))))).
  assert (Hin : In (mkRequest serviceUrl (buildFormData (ui (handleClassNameChange 0 "cat"
                      (onDrop [sampleFile "cat.jpg"] initialWorld)))))
                   (posted inFlightWorld))
    by (vm_compute; left; reflexivity).
  split; [exact Hin|].
  exact (posted_requests_are_well_formed inFlightWorld _ inFlightWorld_reachable Hin).
Defined.

(** X12.  While a request is in flight neither an error nor a download
    link is shown, and its outcome shows exactly one of them: a
    response leaves no error and the fresh object URL as the download
    link; a failure leaves the generic error and no download link, with
    the collection and the count as they were. *)
Theorem request_outcome_shows_one_thing (w : World) :
  reachable w ->
  (isLoading (ui w) = true -> error (ui w) = None /\ downloadUrl (ui w) = None)
  /\ (forall data w',
         step (ResponseArrived data) w = Some w' ->
         isLoading (ui w') = false
         /\ error (ui w') = None
         /\ downloadUrl (ui w') = Some (BlobURL (nextObjectURL w))
         /\ pending w' = [])
  /\ (forall w',
         step RequestFailed w = Some w' ->
         isLoading (ui w') = false
         /\ error (ui w') = Some "Error processing images. Please try again."
         /\ downloadUrl (ui w') = None
         /\ pending w' = []
         /\ files (ui w') = files (ui w)
         /\ numImages (ui w') = numImages (ui w)).
Proof.
  intros Hreach.
  pose proof (SubmissionFacts.reachable_quietWhileLoading w Hreach) as Hquiet.
  pose proof (AppFacts.reachable_pendingMatchesLoading w Hreach) as Hpend.
  unfold Checks.quietWhileLoading in Hquiet. unfold pendingMatchesLoading in Hpend.
  split; [exact Hquiet|].
  assert (Hflight : pending w <> [] ->
                    error (ui w) = None /\ downloadUrl (ui w) = None /\ tl (pending w) = []).
  { intros Hne. destruct (isLoading (ui w)).
    - destruct (Hquiet eq_refl) as [He Hd]. repeat split; try assumption.
      destruct (pending w) as [|r [|r' rest]]; cbn in *; try reflexivity; lia.
    - destruct (pending w); [contradiction|discriminate]. }
  split.
  - intros data w' Hstep. unfold step in Hstep.
    destruct (pending w) as [|r rest] eqn:Hp; [discriminate|].
    destruct Hflight as (He & _ & Htl); [discriminate|].
    injection Hstep as <-. cbn. rewrite Hp. repeat split; assumption.
  - intros w' Hstep. unfold step in Hstep.
    destruct (pending w) as [|r rest] eqn:Hp; [discriminate|].
    destruct Hflight as (_ & Hd & Htl); [discriminate|].
    injection Hstep as <-. cbn. rewrite Hp. repeat split; assumption.
Qed.

Lemma request_outcome_shows_one_thing_witness :
  exists w',
    step RequestFailed inFlightWorld = Some w'
    /\ error (ui w') = Some "Error processing images. Please try again."
    /\ downloadUrl (ui w') = None
    /\ isLoading (ui w') = false.
Proof.
  destruct (step RequestFailed inFlightWorld) as [w'|] eqn:Hrun;
    [|vm_compute in Hrun; discriminate].
  exists w'. split; [reflexivity|].
  destruct (proj2 (proj2 (request_outcome_shows_one_thing inFlightWorld
                            inFlightWorld_reachable)) w' Hrun)
    as (Hl & He & Hd & _).
  repeat split; assumption.
Defined.

End MoreSubmission.

(* ================================================================== *)
(** * More on the lifecycle: messages, gates, object URLs *)
(* ================================================================== *)

Section MoreLifecycle.
Import App Ui Scenario.

(** X13.  The only messages the component ever shows are the
    missing-class-name message and the generic processing error: the
    empty-selection message of line 69 cannot appear, because the
    submit button is disabled while the collection is empty. *)
Theorem empty_selection_message_is_never_shown (w : World) :
  reachable w ->
  error (ui w) = None
  \/ error (ui w) = Some "Please provide a class name for each image"
  \/ error (ui w) = Some "Error processing images. Please try again.".
Proof.
  induction 1 as [|w ev w' _ IH Hstep].
  - now left.
  - destruct ev; try (AppFacts.step_cases Hstep; cbn; solve [auto]).
    + unfold step in Hstep. destruct (rendered _ _); [|discriminate].
      apply AppFacts.handleDrop_frame in Hstep.
      destruct Hstep as (_ & -> & _). exact IH.
    + AppFacts.step_cases Hstep; [exact IH|].
      match goal with
      | Hg : submitDisabled _ || _ = false |- _ =>
          apply orb_false_elim in Hg; destruct Hg as [Hdis _];
          unfold submitDisabled in Hdis; apply orb_false_elim in Hdis;
          destruct Hdis as [_ Hlen]
      end.
      unfold handleSubmit. rewrite Hlen.
      destruct (Js.some _ _); cbn; auto.
Qed.

Lemma empty_selection_message_is_never_shown_witness :
  error (ui inFlightWorld) = None
  \/ error (ui inFlightWorld) = Some "Please provide a class name for each image"
  \/ error (ui inFlightWorld) = Some "Error processing images. Please try again.".
Proof.
  exact (empty_selection_message_is_never_shown inFlightWorld inFlightWorld_reachable).
Defined.

(** X14.  The two guards on class names disagree on white space.  With
    an empty class name in the collection a click on submit does
    nothing at all: [required] withholds the event and no message is
    set.  With class names that are all non-empty but one of them white
    space only, and a count the form accepts, the click reaches
    [handleSubmit], which sets the missing-class-name message and posts
    nothing. *)
Theorem empty_label_blocks_silently_blank_label_reports (w : World) :
  isLoading (ui w) = false ->
  files (ui w) <> [] ->
  ((exists item, In item (files (ui w)) /\ className item = EmptyString) ->
   step SubmitClicked w = Some w)
  /\ (countValid (ui w) = true ->
      (forall item, In item (files (ui w)) -> className item <> EmptyString) ->
      (exists item, In item (files (ui w)) /\ Js.blank (className item) = true) ->
      step SubmitClicked w =
        Some (withUi (setError (Some "Please provide a class name for each image")) w)
      /\ posted (withUi (setError (Some "Please provide a class name for each image")) w)
           = posted w).
Proof.
  intros Hload Hne.
  assert (Hlen : (List.length (files (ui w)) =? 0)%nat = false).
  { destruct (files (ui w)); [contradiction|reflexivity]. }
  split.
  - intros [item [Hin Hempty]]. unfold step.
    destruct (requiredSatisfied (ui w)) eqn:Hreq.
    + unfold requiredSatisfied in Hreq.
      rewrite forallb_forall in Hreq. specialize (Hreq item Hin).
      rewrite Hempty in Hreq. discriminate.
    + cbn [andb negb]. now rewrite orb_true_r.
  - intros Hcount Hall [item [Hin Hblank]]. split; [|reflexivity].
    assert (Hreq : requiredSatisfied (ui w) = true).
    { unfold requiredSatisfied. apply forallb_forall. intros it Hit.
      specialize (Hall it Hit). now destruct (className it). }
    rewrite (SubmissionFacts.submit_click_reaches_handler w Hload Hne Hreq Hcount).
    unfold handleSubmit. rewrite Hlen.
    assert (Hsome : Js.some (fun it => Js.not (Js.trim (className it))) (files (ui w)) = true).
    { apply some_blank_className. exists item. split; [exact Hin|].
      now apply JsFacts.trim_empty. }
    now rewrite Hsome.
Qed.

Lemma empty_label_blocks_silently_blank_label_reports_witness :
  step SubmitClicked (handleClassNameChange 0 EmptyString downloadReadyWorld) =
    Some (handleClassNameChange 0 EmptyString downloadReadyWorld)
  /\ countValid (ui (handleClassNameChange 0 "  " downloadReadyWorld)) = true
  /\ option_map (fun w' => error (ui w'))
       (step SubmitClicked (handleClassNameChange 0 "  " downloadReadyWorld)) =
     Some (Some "Please provide a class name for each image").
Proof.
  split; [|split].
  - apply (empty_label_blocks_silently_blank_label_reports
             (handleClassNameChange 0 EmptyString downloadReadyWorld)).
    + vm_compute. reflexivity.
    + vm_compute. discriminate.
    + eexists. split; [vm_compute; left; reflexivity|reflexivity].
  - vm_compute. reflexivity.
  - assert (Hall : forall item,
               In item (files (ui (handleClassNameChange 0 "  " downloadReadyWorld))) ->
               className item <> EmptyString).
    { intros item Hin. vm_compute in Hin. destruct Hin as [<-|[]]. discriminate. }
    assert (Hex : exists item,
               In item (files (ui (handleClassNameChange 0 "  " downloadReadyWorld)))
               /\ Js.blank (className item) = true).
    { eexists. split; [vm_compute; left; reflexivity|vm_compute; reflexivity]. }
    destruct (proj2 (empty_label_blocks_silently_blank_label_reports
                       (handleClassNameChange 0 "  " downloadReadyWorld)
                       ltac:(vm_compute; reflexivity)
                       ltac:(vm_compute; discriminate))
                    ltac:(vm_compute; reflexivity) Hall Hex) as [Hclick _].
    rewrite Hclick. reflexivity.
Defined.

(** X16.  The request in flight is the one posted last: in every
    reachable world either nothing is pending, or the single pending
    request is the most recent entry of the log of posted requests. *)
Theorem pending_request_is_the_last_posted (w : World) :
  reachable w ->
  pending w = []
  \/ exists earlier r, posted w = earlier ++ [r] /\ pending w = [r].
Proof.
  intros Hreach.
  induction Hreach as [|w ev w' Hreach IH Hstep].
  - now left.
  - pose proof (AppFacts.reachable_pendingMatchesLoading w Hreach) as Hpend.
    unfold pendingMatchesLoading in Hpend.
    destruct ev; try (AppFacts.step_cases Hstep; cbn; exact IH).
    + unfold step in Hstep. destruct (rendered _ _); [|discriminate].
      apply AppFacts.handleDrop_frame in Hstep.
      destruct Hstep as (_ & _ & _ & _ & -> & -> & _). exact IH.
    + AppFacts.step_cases Hstep; [exact IH|].
      match goal with
      | Hg : submitDisabled _ || _ = false |- _ =>
          apply orb_false_elim in Hg; destruct Hg as [Hdis _];
          unfold submitDisabled in Hdis; apply orb_false_elim in Hdis;
          destruct Hdis as [Hload Hlen]
      end.
      rewrite Hload in Hpend. apply length_zero_iff_nil in Hpend.
      unfold handleSubmit. rewrite Hlen.
      destruct (Js.some _ _); cbn; [now left|].
      right. rewrite Hpend. eexists. eexists. split; reflexivity.
    + AppFacts.step_cases Hstep. cbn. left.
      match goal with Hp : pending w = _ |- _ => rewrite Hp in *; cbn in * end.
      match goal with |- ?rest = [] => destruct rest; [reflexivity|] end.
      destruct (isLoading (ui w)); cbn in Hpend; lia.
    + AppFacts.step_cases Hstep. cbn. left.
      match goal with Hp : pending w = _ |- _ => rewrite Hp in *; cbn in * end.
      match goal with |- ?rest = [] => destruct rest; [reflexivity|] end.
      destruct (isLoading (ui w)); cbn in Hpend; lia.
Qed.

Lemma pending_request_is_the_last_posted_witness :
  exists earlier r, posted inFlightWorld = earlier ++ [r] /\ pending inFlightWorld = [r].
Proof.
  destruct (pending_request_is_the_last_posted inFlightWorld inFlightWorld_reachable)
    as [Hnone|Hlast].
  - vm_compute in Hnone. discriminate.
  - exact Hlast.
Defined.

(** X22.  A download link is only ever accompanied by the
    missing-class-name message: the generic processing error and a
    download link are never shown together. *)
Theorem download_link_excludes_processing_error (w : World) :
  reachable w ->
  downloadUrl (ui w) <> None ->
  error (ui w) = None
  \/ error (ui w) = Some "Please provide a class name for each image".
Proof.
  intros Hreach.
  induction Hreach as [|w ev w' Hreach IH Hstep].
  - intros Hurl. now contradiction Hurl.
  - pose proof (SubmissionFacts.reachable_quietWhileLoading w Hreach) as Hquiet.
    pose proof (AppFacts.reachable_pendingMatchesLoading w Hreach) as Hpend.
    unfold Checks.quietWhileLoading in Hquiet. unfold pendingMatchesLoading in Hpend.
    assert (Hflight : pending w <> [] ->
                      error (ui w) = None /\ downloadUrl (ui w) = None).
    { intros Hne. destruct (isLoading (ui w)); [now apply Hquiet|].
      destruct (pending w); [contradiction|discriminate]. }
    destruct ev; try (AppFacts.step_cases Hstep; cbn; solve [auto]).
    + (* DroppedOn *)
      unfold step in Hstep. destruct (rendered _ _); [|discriminate].
      apply AppFacts.handleDrop_frame in Hstep.
      destruct Hstep as (_ & -> & -> & _). exact IH.
    + (* SubmitClicked *)
      AppFacts.step_cases Hstep; [exact IH|].
      match goal with
      | Hg : submitDisabled _ || _ = false |- _ =>
          apply orb_false_elim in Hg; destruct Hg as [Hdis _];
          unfold submitDisabled in Hdis; apply orb_false_elim in Hdis;
          destruct Hdis as [_ Hlen]
      end.
      unfold handleSubmit. rewrite Hlen.
      destruct (Js.some _ _); cbn; auto.
    + (* ResponseArrived *)
      AppFacts.step_cases Hstep. cbn. intros _. left.
      apply Hflight. congruence.
    + (* RequestFailed *)
      AppFacts.step_cases Hstep. cbn. intros Hurl.
      destruct Hflight as [_ Hd]; [congruence|]. contradiction.
Qed.

Lemma download_link_excludes_processing_error_witness :
  downloadUrl (ui downloadReadyWorld) <> None
  /\ (error (ui downloadReadyWorld) = None
      \/ error (ui downloadReadyWorld) = Some "Please provide a class name for each image").
Proof.
  assert (Hreach : reachable downloadReadyWorld).
  { apply (AppFacts.run_reachable firstDownload initialWorld).
    - exact reachable_init.
    - vm_compute. reflexivity. }
  assert (Hurl : downloadUrl (ui downloadReadyWorld) <> None)
    by (vm_compute; discriminate).
  split; [exact Hurl|].
  exact (download_link_excludes_processing_error downloadReadyWorld Hreach Hurl).
Defined.

End MoreLifecycle.

(* ================================================================== *)
(** * The single-image variant *)
(* ================================================================== *)

Module SingleFacts.
Import SingleImage.

Ltac single_cases H :=
  unfold step in H;
  repeat match type of H with
    | (if ?c then _ else _) = Some _ => destruct c eqn:?
    | match pending ?w with _ => _ end = Some _ => destruct (pending w) eqn:?
    end;
  try discriminate;
  try (injection H as H; subst).

Lemma submitDisabled_false (s : State) :
  submitDisabled s = false -> isLoading s = false /\ exists f, file s = Some f.
Proof.
  unfold submitDisabled. intros H. apply orb_false_elim in H.
  destruct H as [Hload Hfile]. split; [exact Hload|].
  destruct (file s); [eauto|discriminate].
Qed.

Lemma gate_open (s : State) :
  submitDisabled s || negb (countValid s) = false ->
  isLoading s = false /\ (exists f, file s = Some f) /\ countValid s = true.
Proof.
  intros H. apply orb_false_elim in H. destruct H as [Hdis Hcount].
  destruct (submitDisabled_false s Hdis) as [Hload Hfile].
  repeat split; try assumption. now destruct (countValid s).
Qed.

Lemma step_settled (ev : Event) (w w' : World) :
  settled w -> step ev w = Some w' -> settled w'.
Proof.
  unfold settled, exclusive. intros [Hex Hpend] Hstep.
  destruct ev; single_cases Hstep; cbn; try (split; assumption).
  - (* FilesDropped *)
    split; [|exact Hpend]. now destruct (isLoading (ui w)).
  - (* SubmitClicked *)
    match goal with
    | Hg : submitDisabled _ || _ = false |- _ =>
        apply gate_open in Hg; destruct Hg as (Hload & [f Hfile] & _)
    end.
    rewrite Hload in Hpend. unfold handleSubmit. rewrite Hfile. cbn.
    split; [exact I|]. rewrite length_app. cbn. lia.
  - (* ResponseArrived *)
    match goal with Hp : pending w = _ |- _ => rewrite Hp in *; cbn in * end.
    destruct (isLoading (ui w)), (error (ui w)), (downloadUrl (ui w));
      try contradiction; cbn in Hpend; try lia; try (split; [exact I|lia]).
  - (* RequestFailed *)
    match goal with Hp : pending w = _ |- _ => rewrite Hp in *; cbn in * end.
    destruct (isLoading (ui w)), (error (ui w)), (downloadUrl (ui w));
      try contradiction; cbn in Hpend; try lia; try (split; [exact I|lia]).
Qed.

Lemma reachable_settled (w : World) : reachable w -> settled w.
Proof.
  induction 1 as [|w ev w' _ IH Hstep].
  - split; [exact I|reflexivity].
  - exact (step_settled _ _ _ IH Hstep).
Qed.

Lemma selected_reachable : reachable (onDrop [sampleImage] initialWorld).
Proof.
  apply (reachable_step initialWorld (FilesDropped [sampleImage])).
  - exact reachable_init.
  - reflexivity.
Qed.

Lemma submitted_reachable :
  reachable (handleSubmit (onDrop [sampleImage] initialWorld)).
Proof.
  apply (reachable_step (onDrop [sampleImage] initialWorld) SubmitClicked).
  - exact selected_reachable.
  - vm_compute. reflexivity.
Qed.

End SingleFacts.

Section Single.
Import SingleImage.

(** X17.  In the single-image variant the class name is sent as typed
    and the count is checked by the form only.  With a file selected
    and no request in flight, a typed count and a typed class name are
    stored whatever they are.  If the count is [NaN] (the field left
    empty) or an integer from 1 to 100, a click on submit posts one
    request whose fields are, in this order, the file, the count as
    [toString] renders it and the class name as typed, be it empty; if
    the count is an integer outside 1..100 the click changes nothing. *)
Theorem single_submit_sends_what_the_form_accepts
        (w : World) (f : File) (parsed : Js.number) (value : string) :
  isLoading (ui w) = false ->
  file (ui w) = Some f ->
  exists w1 w2,
    step (NumImagesTyped parsed) w = Some w1
    /\ step (ClassNameTyped value) w1 = Some w2
    /\ numImages (ui w2) = parsed
    /\ className (ui w2) = value
    /\ (countValid (ui w2) = true ->
        exists w3,
          step SubmitClicked w2 = Some w3
          /\ posted w3 =
               posted w ++
                 [mkRequest "http://localhost:8000/augment/"
                    [("file", FormData.FileValue f);
                     ("num_images", FormData.StringValue (Js.toString parsed));
                     ("class_name", FormData.StringValue value)]]
          /\ isLoading (ui w3) = true)
    /\ (countValid (ui w2) = false -> step SubmitClicked w2 = Some w2).
Proof.
  intros Hload Hfile.
  exists (withUi (setNumImages parsed) w).
  exists (withUi (setClassName value) (withUi (setNumImages parsed) w)).
  split; [|split; [|split; [reflexivity|split; [reflexivity|split]]]].
  - unfold step, inputDisabled. now rewrite Hload.
  - unfold step, inputDisabled. cbn. now rewrite Hload.
  - intros Hcount.
    exists (handleSubmit (withUi (setClassName value) (withUi (setNumImages parsed) w))).
    split; [|split].
    + unfold step. rewrite Hcount. unfold submitDisabled. cbn. now rewrite Hload, Hfile.
    + unfold handleSubmit. cbn. rewrite Hfile. reflexivity.
    + unfold handleSubmit. cbn. rewrite Hfile. reflexivity.
  - intros Hcount. unfold step. rewrite Hcount. cbn [negb]. now rewrite orb_true_r.
Qed.

Lemma single_submit_sends_what_the_form_accepts_witness :
  (exists w1 w2 w3,
      step (NumImagesTyped Js.NaN) (onDrop [sampleImage] initialWorld) = Some w1
      /\ step (ClassNameTyped EmptyString) w1 = Some w2
      /\ step SubmitClicked w2 = Some w3
      /\ List.map (fun r => List.map snd (body r)) (posted w3) =
           [[FormData.FileValue sampleImage;
             FormData.StringValue "NaN"; FormData.StringValue EmptyString]])
  /\ (exists w1 w2,
         step (NumImagesTyped (Js.Int 101)) (onDrop [sampleImage] initialWorld) = Some w1
         /\ step (ClassNameTyped "cat") w1 = Some w2
         /\ step SubmitClicked w2 = Some w2).
Proof.
  assert (Hload : isLoading (ui (onDrop [sampleImage] initialWorld)) = false)
    by (vm_compute; reflexivity).
  assert (Hfile : file (ui (onDrop [sampleImage] initialWorld)) = Some sampleImage)
    by (vm_compute; reflexivity).
  split.
  - destruct (single_submit_sends_what_the_form_accepts
                (onDrop [sampleImage] initialWorld) sampleImage Js.NaN EmptyString
                Hload Hfile)
      as (w1 & w2 & H1 & H2 & Hnum & _ & Hvalid & _).
    destruct Hvalid as (w3 & H3 & Hposted & _).
    + unfold countValid. rewrite Hnum. reflexivity.
    + exists w1, w2, w3. split; [exact H1|]. split; [exact H2|]. split; [exact H3|].
      rewrite Hposted. vm_compute. reflexivity.
  - destruct (single_submit_sends_what_the_form_accepts
                (onDrop [sampleImage] initialWorld) sampleImage (Js.Int 101) "cat"
                Hload Hfile)
      as (w1 & w2 & H1 & H2 & Hnum & _ & _ & Hinvalid).
    exists w1, w2. split; [exact H1|]. split; [exact H2|].
    apply Hinvalid. unfold countValid. rewrite Hnum. reflexivity.
Defined.

(** X18.  Every request the single-image variant has ever posted goes
    to its endpoint with exactly three fields, in the order [file],
    [num_images], [class_name]. *)
Theorem single_posted_requests_have_three_fields (w : World) (r : Request) :
  reachable w -> In r (posted w) ->
  endpoint r = "http://localhost:8000/augment/"
  /\ exists f count label,
      body r = [("file", FormData.FileValue f);
                ("num_images", FormData.StringValue count);
                ("class_name", FormData.StringValue label)].
Proof.
  intros Hreach. revert r.
  induction Hreach as [|w ev w' _ IH Hstep]; intros r Hin.
  - destruct Hin.
  - destruct ev; SingleFacts.single_cases Hstep; cbn in Hin; try (now apply IH).
    match goal with
    | Hg : submitDisabled _ || _ = false |- _ =>
        apply SingleFacts.gate_open in Hg; destruct Hg as (_ & [f Hfile] & _)
    end.
    unfold handleSubmit in Hin. rewrite Hfile in Hin. cbn in Hin.
    apply in_app_or in Hin. destruct Hin as [Hin|[<-|[]]]; [now apply IH|].
    split; [reflexivity|]. eexists. eexists. eexists. reflexivity.
Qed.

Lemma single_posted_requests_have_three_fields_witness :
  exists r,
    In r (posted (handleSubmit (onDrop [sampleImage] initialWorld)))
    /\ List.map fst (body r) = ["file"; "num_images"; "class_name"].
Proof.
  destruct (posted (handleSubmit (onDrop [sampleImage] initialWorld)))
    as [|r rest] eqn:Hposted; [vm_compute in Hposted; discriminate|].
  exists r. split; [now left|].
  assert (Hin : In r (posted (handleSubmit (onDrop [sampleImage] initialWorld))))
    by (rewrite Hposted; now left).
  destruct (single_posted_requests_have_three_fields _ r SingleFacts.submitted_reachable Hin)
    as (_ & f & count & label & Hbody).
  rewrite Hbody. reflexivity.
Defined.

(** X19.  In the single-image variant a drop replaces the selection: of
    the accepted files only the first is kept and an earlier drop is
    forgotten.  A drop that accepted no file unselects the current file
    and leaves the submit button disabled, so a click on it does
    nothing. *)
Theorem single_drop_replaces_selection (w : World) (acceptedFiles earlier : list File) :
  onDrop acceptedFiles (onDrop earlier w) = onDrop acceptedFiles w
  /\ file (ui (onDrop acceptedFiles w)) = hd_error acceptedFiles
  /\ file (ui (onDrop [] w)) = None
  /\ step SubmitClicked (onDrop [] w) = Some (onDrop [] w).
Proof.
  split; [reflexivity|]. split; [now destruct acceptedFiles|].
  split; [reflexivity|].
  unfold step, submitDisabled. cbn. now rewrite orb_true_r.
Qed.

(** X20.  In the single-image variant the request cells are exclusive
    in every reachable state: at most one of spinner, error and
    download link is present, and at most one request is pending, one
    exactly while the spinner shows. *)
Theorem single_request_state_is_exclusive (w : World) :
  reachable w ->
  exclusive (ui w)
  /\ (List.length (pending w) <= 1)%nat
  /\ (isLoading (ui w) = true <-> pending w <> [])
  /\ ~ (error (ui w) <> None /\ downloadUrl (ui w) <> None).
Proof.
  intros Hreach.
  destruct (SingleFacts.reachable_settled w Hreach) as [Hex Hpend].
  split; [exact Hex|]. split; [|split].
  - destruct (isLoading (ui w)); lia.
  - destruct (isLoading (ui w)), (pending w); cbn in Hpend;
      split; intros H; try discriminate; try reflexivity; try lia.
    now contradiction H.
  - unfold exclusive in Hex. intros [He Hd].
    destruct (isLoading (ui w)), (error (ui w)), (downloadUrl (ui w));
      try contradiction; auto.
Qed.

Lemma single_request_state_is_exclusive_witness :
  exclusive (ui (handleSubmit (onDrop [sampleImage] initialWorld)))
  /\ List.length (pending (handleSubmit (onDrop [sampleImage] initialWorld))) = 1%nat.
Proof.
  split; [|vm_compute; reflexivity].
  exact (proj1 (single_request_state_is_exclusive _ SingleFacts.submitted_reachable)).
Defined.

(** X21.  In the single-image variant the message of line 31, "Please
    select an image file", can never appear: the button that leads to
    it is disabled while no file is selected.  The only error shown is
    the generic processing error. *)
Theorem single_select_message_is_never_shown (w : World) :
  reachable w ->
  error (ui w) = None
  \/ error (ui w) = Some "Error processing image. Please try again.".
Proof.
  induction 1 as [|w ev w' _ IH Hstep].
  - now left.
  - destruct ev; SingleFacts.single_cases Hstep; cbn; auto.
    match goal with
    | Hg : submitDisabled _ || _ = false |- _ =>
        apply SingleFacts.gate_open in Hg; destruct Hg as (_ & [f Hfile] & _)
    end.
    unfold handleSubmit. rewrite Hfile. cbn. now left.
Qed.

Lemma single_select_message_is_never_shown_witness :
  error (ui (handleSubmit (onDrop [sampleImage] initialWorld))) = None
  \/ error (ui (handleSubmit (onDrop [sampleImage] initialWorld))) =
       Some "Error processing image. Please try again.".
Proof.
  exact (single_select_message_is_never_shown _ SingleFacts.submitted_reachable).
Defined.

End Single.
